(** * SQL Data Analyst app: chat orchestration

    A shallow embedding of [apps/data_visualization_agent-app/app.py]: the
    Streamlit script that records a question, runs the SQL agent, stores the
    resulting data frame, runs the visualisation agent and renders the chat
    history.

    The script mutates two pieces of session state (the chat message history
    and the list [st.session_state.dataframes]) and writes to the page.  Both
    are modelled by a state-and-exception monad whose state also keeps the
    ordered trace of every effect, so that statements about "the moment a
    turn is appended" can be made on that trace.

    The language-model agents, the database and the page are outside the
    script: an agent call is an oracle whose outcome (a value or a raised
    exception) is an input of the model, and a write to the page or to the
    session state does not raise.  Strings are byte strings. *)

From Stdlib Require Import String Ascii List ZArith Lia Bool Arith.
From Stdlib Require Import DecimalString DecimalNat.
Import ListNotations.

Local Open Scope list_scope.

Infix "+++" := String.append (right associativity, at level 60).

(** ** Python values the script handles *)

Module Py.

(** An exception caught by [except Exception as e]; [str] is [str(e)]. *)
Inductive exn :=
| Exception (msg : string)
| ValueError (msg : string)
| IndexError (msg : string).

Definition str (e : exn) : string :=
  match e with
  | Exception m | ValueError m | IndexError m => m
  end.

(** Truth value of [None] or a [str]: only a non-empty string is true. *)
Definition truthy_str (s : option string) : bool :=
  match s with
  | Some (String _ _) => true
  | _ => false
  end.

Definition nl : string := String (ascii_of_nat 10) EmptyString.

(** [f"{n}"] for a non-negative [int]. *)
Definition str_of_nat (n : nat) : string :=
  NilZero.string_of_uint (Nat.to_uint n).

(** *** [str.find], [in], [str.split] *)

(** [s.find(sub)], with [None] for -1. *)
Fixpoint find (sub s : string) : option nat :=
  if String.prefix sub s then Some 0
  else match s with
       | EmptyString => None
       | String _ s' => option_map S (find sub s')
       end.

(** [sub in s]. *)
Definition contains (sub s : string) : bool :=
  match find sub s with Some _ => true | None => false end.

Fixpoint take (n : nat) (s : string) : string :=
  match n, s with
  | S k, String c s' => String c (take k s')
  | _, _ => EmptyString
  end.

Fixpoint drop (n : nat) (s : string) : string :=
  match n, s with
  | S k, String _ s' => drop k s'
  | _, _ => s
  end.

(** [s.split(sep)] for a non-empty [sep]: cut at the first occurrence of
    [sep], go on after it.  Every cut removes at least one character, so
    [String.length s] rounds are enough. *)
Fixpoint split_fuel (fuel : nat) (sep s : string) : list string :=
  match fuel with
  | O => [s]
  | S fuel' =>
      match find sep s with
      | None => [s]
      | Some i => take i s :: split_fuel fuel' sep (drop (i + String.length sep) s)
      end
  end.

Definition split (sep s : string) : list string :=
  split_fuel (String.length s) sep s.

(** *** [int(s)] on a [str], base 10 *)

(** Characters [int] strips at both ends: tab to carriage return, the four
    separators 28-31 and the space. *)
Definition is_space (c : ascii) : bool :=
  let n := nat_of_ascii c in
  ((9 <=? n) && (n <=? 13)) || ((28 <=? n) && (n <=? 32)).

Definition digit_of (c : ascii) : option Z :=
  let n := nat_of_ascii c in
  if (48 <=? n) && (n <=? 57) then Some (Z.of_nat (n - 48)) else None.

Fixpoint lstrip (s : string) : string :=
  match s with
  | String c s' => if is_space c then lstrip s' else s
  | EmptyString => EmptyString
  end.

Fixpoint rev_onto (s acc : string) : string :=
  match s with
  | EmptyString => acc
  | String c s' => rev_onto s' (String c acc)
  end.

Definition rev (s : string) : string := rev_onto s EmptyString.

Definition strip (s : string) : string := rev (lstrip (rev (lstrip s))).

(** Digits, with single underscores allowed between two digits.
    [need_digit] holds at the start and right after an underscore. *)
Fixpoint parse_digits (acc : Z) (need_digit : bool) (s : string) : option Z :=
  match s with
  | EmptyString => if need_digit then None else Some acc
  | String c s' =>
      match digit_of c with
      | Some d => parse_digits (10 * acc + d) false s'
      | None =>
          if Ascii.eqb c "_"%char
          then (if need_digit then None else parse_digits acc true s')
          else None
      end
  end.

(** [int(s)]: [inl] is the [ValueError].  The cap that recent interpreters
    put on the number of digits is left out. *)
Definition int (s : string) : exn + Z :=
  let body := strip s in
  let r :=
    match body with
    | String "-" rest => option_map Z.opp (parse_digits 0 true rest)
    | String "+" rest => parse_digits 0 true rest
    | _ => parse_digits 0 true body
    end in
  match r with
  | Some z => inr z
  | None => inl (ValueError ("invalid literal for int() with base 10: '" +++ s +++ "'"))
  end.

(** [l[i]] on a list: negative indices count from the end. *)
Definition getitem {A : Type} (l : list A) (i : Z) : exn + A :=
  let n := Z.of_nat (length l) in
  let j := if (i <? 0)%Z then (i + n)%Z else i in
  if ((j <? 0) || (n <=? j))%Z
  then inl (IndexError "list index out of range")
  else match nth_error l (Z.to_nat j) with
       | Some x => inr x
       | None => inl (IndexError "list index out of range")
       end.

End Py.

(** ** Data of the app *)

(** [msg.type] of a chat message. *)
Inductive msg_type := human | ai.

Record message := mkMessage { type : msg_type; content : string }.

(** A [pandas.DataFrame], as far as the script looks at it: it never does. *)
Record DataFrame := mkDataFrame {
  columns : list string;
  rows : list (list string)
}.

Definition df_empty (df : DataFrame) : bool :=
  match rows df with [] => true | _ => false end.

(** What [get_plotly_graph()] hands back: [None], a dictionary or a figure
    object.  [None] and the empty dictionary are false in an [if]. *)
Inductive plotly_graph :=
| GraphNone
| GraphDict (items : list (string * string))
| GraphFigure (json : string).

Definition truthy_graph (g : plotly_graph) : bool :=
  match g with
  | GraphNone => false
  | GraphDict [] => false
  | GraphDict (_ :: _) => true
  | GraphFigure _ => true
  end.

(** The two getters read after [ainvoke_agent] returned. *)
Record sql_result := mkSqlResult {
  get_sql_query_code : option string;
  get_data_sql : DataFrame
}.

(** The session state the script keeps between runs. *)
Record session_state := mkSession {
  langchain_messages : list message;
  dataframes : list DataFrame
}.

(** Where on the page an element goes. *)
Inductive container := Main | ChatMessage (role : msg_type).

Inductive log_level := DEBUG | ERROR.

(** Every effect of the script, in the order it happens. *)
Inductive event :=
| AddMessage (m : message)                 (* msgs.add_ai_message / add_user_message *)
| AppendDataframe (df : DataFrame)         (* st.session_state.dataframes.append *)
| StWrite (c : container) (text : string)  (* st.write, st.chat_message(..).write *)
| StDataframe (c : container) (df : DataFrame)
| StPlotlyChart (g : plotly_graph)
| StError (text : string)
| InvokeSql (question : string)            (* sql_data_analyst.ainvoke_agent *)
| InvokeViz (question : string) (df : DataFrame)  (* data_visualization_agent.invoke_agent *)
| Print (text : string)
| Log (lvl : log_level) (text : string).

Record world := mkWorld {
  session : session_state;
  trace : list event
}.

(** ** The monad: state that survives a raised exception *)

Definition M (A : Type) : Type := world -> (Py.exn + A) * world.

Definition ret {A} (a : A) : M A := fun w => (inr a, w).

Definition bind {A B} (m : M A) (k : A -> M B) : M B :=
  fun w =>
    match m w with
    | (inl e, w') => (inl e, w')
    | (inr a, w') => k a w'
    end.

Definition raise {A} (e : Py.exn) : M A := fun w => (inl e, w).

(** [try: body  except Exception as e: handler e]. *)
Definition try_except {A} (body : M A) (handler : Py.exn -> M A) : M A :=
  fun w =>
    match body w with
    | (inl e, w') => handler e w'
    | r => r
    end.

Definition lift {A} (r : Py.exn + A) : M A := fun w => (r, w).

Declare Scope py_scope.
Delimit Scope py_scope with py.
Notation "x <- c1 ;; c2" := (bind c1 (fun x => c2))
  (at level 61, c1 at next level, right associativity) : py_scope.
Notation "c1 ;; c2" := (bind c1 (fun _ => c2))
  (at level 61, right associativity) : py_scope.

(** *** Primitive effects *)

Definition emit (e : event) : M unit :=
  fun w => (inr tt, mkWorld (session w) (trace w ++ [e])).

Definition add_message (m : message) : M unit :=
  fun w =>
    (inr tt,
     mkWorld (mkSession (langchain_messages (session w) ++ [m]) (dataframes (session w)))
             (trace w ++ [AddMessage m])).

Definition add_ai_message (text : string) : M unit := add_message (mkMessage ai text).
Definition add_user_message (text : string) : M unit := add_message (mkMessage human text).

Definition get_messages : M (list message) :=
  fun w => (inr (langchain_messages (session w)), w).

Definition get_dataframes : M (list DataFrame) :=
  fun w => (inr (dataframes (session w)), w).

Definition dataframes_append (df : DataFrame) : M unit :=
  fun w =>
    (inr tt,
     mkWorld (mkSession (langchain_messages (session w)) (dataframes (session w) ++ [df]))
             (trace w ++ [AppendDataframe df])).

(** *** The agents, as oracles *)

Record agents := mkAgents {
  (** [asyncio.run(handle_question(question))]: the analyst after
      [ainvoke_agent], or the exception it raised. *)
  sql_data_analyst : string -> Py.exn + sql_result;
  (** [invoke_agent(user_instructions, data_raw)] then [get_plotly_graph()]. *)
  data_visualization_agent : string -> DataFrame -> Py.exn + plotly_graph
}.

Definition ainvoke_agent (ag : agents) (question : string) : M sql_result :=
  bind (emit (InvokeSql question)) (fun _ => lift (sql_data_analyst ag question)).

Definition invoke_agent (ag : agents) (question : string) (df : DataFrame) : M plotly_graph :=
  bind (emit (InvokeViz question df)) (fun _ => lift (data_visualization_agent ag question df)).

(** ** The script *)

Local Open Scope py_scope.

Definition db_path : string :=
  "/Users/aelkhodary/Documents/GitHub/ai-data-science-team/data/northwind.db".

Definition PATH_DB : string := "sqlite:///" +++ db_path.

Definition greeting : string := "How can I help you?".

Definition marker : string := "DATAFRAME_INDEX:".

Definition indent : string := "            ".

(** The f-string of lines 207-211: the text before [{e}], [str(e)], and the
    line break and indentation before the closing quotes. *)
Definition apology : string :=
  Py.nl +++ indent +++
  "I'm sorry. I am having difficulty answering that question. You can try providing more details and I'll do my best to provide an answer."
  +++ Py.nl +++ indent +++ Py.nl +++ indent +++ "Error: ".

Definition response_text (e : Py.exn) : string :=
  apology +++ Py.str e +++ Py.nl +++ indent.

Definition response_1 (sql_query : string) : string :=
  "### SQL Results:" +++ Py.nl +++ Py.nl +++ "SQL Query:" +++ Py.nl +++ Py.nl +++
  "```sql" +++ Py.nl +++ sql_query +++ Py.nl +++ "```" +++ Py.nl +++ Py.nl +++ "Result:".

Definition dataframe_ref (df_index : nat) : string :=
  marker +++ Py.str_of_nat df_index.

Definition viz_response : string := "### Visualization created based on the data".

(** The text a [str] or [None] formats to inside an f-string. *)
Definition fmt (s : option string) : string :=
  match s with Some t => t | None => "None" end.

(** Lines 143-150: one chat bubble per message, a table for a message whose
    content holds the marker, the text otherwise. *)
Definition display_message (msg : message) : M unit :=
  if Py.contains marker (content msg) then
    piece <- lift (match nth_error (Py.split marker (content msg)) 1 with
                   | Some p => inr p
                   | None => inl (Py.IndexError "list index out of range")
                   end) ;;
    df_index <- lift (Py.int piece) ;;
    dfs <- get_dataframes ;;
    df <- lift (Py.getitem dfs df_index) ;;
    emit (StDataframe (ChatMessage (type msg)) df)
  else
    emit (StWrite (ChatMessage (type msg)) (content msg)).

Fixpoint display_messages (l : list message) : M unit :=
  match l with
  | [] => ret tt
  | msg :: rest => display_message msg ;; display_messages rest
  end.

Definition display_chat_history : M unit :=
  l <- get_messages ;; display_messages l.

(** Lines 188-262: what the script does with a submitted question. *)
Definition handle_question (ag : agents) (question : string) : M unit :=
  emit (StWrite (ChatMessage human) question) ;;
  add_user_message question ;;
  (if Py.truthy_str (Some question)
   then emit (Log DEBUG ("Received question: " +++ question))
   else ret tt) ;;
  (* [result] is [None] exactly when [error_occured] was set. *)
  result <- try_except
              (emit (Print PATH_DB) ;;
               r <- ainvoke_agent ag question ;;
               emit (Log DEBUG "Question processed successfully") ;;
               ret (Some r))
              (fun e =>
                 emit (Print (Py.str e)) ;;
                 add_ai_message (response_text e) ;;
                 emit (StWrite (ChatMessage ai) (response_text e)) ;;
                 emit (StError ("Error: " +++ Py.str e)) ;;
                 ret None) ;;
  match result with
  | None => ret tt
  | Some result =>
      let sql_query := get_sql_query_code result in
      let response_df := get_data_sql result in
      if Py.truthy_str sql_query then
        dfs <- get_dataframes ;;
        let df_index := length dfs in
        dataframes_append response_df ;;
        add_ai_message (response_1 (fmt sql_query)) ;;
        add_ai_message (dataframe_ref df_index) ;;
        emit (StWrite (ChatMessage ai) (response_1 (fmt sql_query))) ;;
        emit (StDataframe Main response_df) ;;
        try_except
          (plotly_graph <- invoke_agent ag question response_df ;;
           if truthy_graph plotly_graph then
             emit (StPlotlyChart plotly_graph) ;;
             add_ai_message viz_response ;;
             emit (StWrite (ChatMessage ai) viz_response)
           else ret tt)
          (fun e =>
             emit (Log ERROR ("Visualization failed: " +++ Py.str e)) ;;
             emit (StError ("Failed to create visualization: " +++ Py.str e)))
      else ret tt
  end.

(** One run of the script from line 134 on, for a session whose database
    and API key are in place: [question] is what [st.chat_input] returned. *)
Definition script_run (ag : agents) (question : option string) : M unit :=
  l <- get_messages ;;
  (if (length l =? 0)%nat then add_ai_message greeting else ret tt) ;;
  display_chat_history ;;
  match question with
  | Some q => if Py.truthy_str question then handle_question ag q else ret tt
  | None => ret tt
  end.

(** A run starts on an empty page; an uncaught exception ends it. *)
Definition run (m : M unit) (s : session_state) : (Py.exn + unit) * world :=
  m (mkWorld s []).

Definition new_session : session_state := mkSession [] [].

(** ** Reading a trace *)

(** What an effect does to the session state: only the two appends touch it. *)
Definition apply_event (s : session_state) (e : event) : session_state :=
  match e with
  | AddMessage m => mkSession (langchain_messages s ++ [m]) (dataframes s)
  | AppendDataframe df => mkSession (langchain_messages s) (dataframes s ++ [df])
  | _ => s
  end.

(** The session state after the effects [tr], starting in [s]. *)
Definition replay (tr : list event) (s : session_state) : session_state :=
  fold_left apply_event tr s.

(** A computation is [traced] when its trace accounts for all it does to the
    session state. *)
Definition traced {A} (m : M A) : Prop :=
  forall w, exists tr,
    trace (snd (m w)) = trace w ++ tr /\
    session (snd (m w)) = replay tr (session w).

(** The turns appended to the transcript, in order. *)
Fixpoint appended_turns (tr : list event) : list message :=
  match tr with
  | [] => []
  | AddMessage m :: tr' => m :: appended_turns tr'
  | _ :: tr' => appended_turns tr'
  end.

Definition is_ai (m : message) : bool :=
  match type m with ai => true | human => false end.

Definition assistant_turns (tr : list event) : list message :=
  filter is_ai (appended_turns tr).

(** The tables stored, in order. *)
Fixpoint stored_tables (tr : list event) : list DataFrame :=
  match tr with
  | [] => []
  | AppendDataframe df :: tr' => df :: stored_tables tr'
  | _ :: tr' => stored_tables tr'
  end.

(** How often the visualisation agent was called. *)
Fixpoint viz_invocations (tr : list event) : nat :=
  match tr with
  | [] => 0
  | InvokeViz _ _ :: tr' => S (viz_invocations tr')
  | _ :: tr' => viz_invocations tr'
  end.

(** The [st.error] boxes put on the page. *)
Fixpoint warnings (tr : list event) : list string :=
  match tr with
  | [] => []
  | StError t :: tr' => t :: warnings tr'
  | _ :: tr' => warnings tr'
  end.

(** The charts put on the page. *)
Fixpoint charts_shown (tr : list event) : list plotly_graph :=
  match tr with
  | [] => []
  | StPlotlyChart g :: tr' => g :: charts_shown tr'
  | _ :: tr' => charts_shown tr'
  end.

(** An assistant turn that starts with the marker: the table reference of
    line 232. *)
Definition is_table_ref (m : message) : bool :=
  is_ai m && String.prefix marker (content m).

Definition table_refs (l : list message) : list message := filter is_table_ref l.


(** The events a question's first lines always produce. *)
Definition log_question (q : string) : list event :=
  if Py.truthy_str (Some q) then [Log DEBUG ("Received question: " +++ q)] else [].

Definition question_prologue (q : string) : list event :=
  [StWrite (ChatMessage human) q; AddMessage (mkMessage human q)]
    ++ log_question q ++ [Print PATH_DB; InvokeSql q].

(** The events of lines 219-236, for a query [sql] and the table [df] stored
    at position [n]. *)
Definition sql_success_events (sql : string) (df : DataFrame) (n : nat) : list event :=
  [Log DEBUG "Question processed successfully";
   AppendDataframe df;
   AddMessage (mkMessage ai (response_1 sql));
   AddMessage (mkMessage ai (dataframe_ref n));
   StWrite (ChatMessage ai) (response_1 sql);
   StDataframe Main df].

(** The text between the first marker of [c] and the next one, or the end:
    what [c.split(marker)[1]] is when [c] holds the marker. *)
Definition segment (c : string) : string :=
  match Py.find marker c with
  | None => EmptyString
  | Some i =>
      let rest := Py.drop (i + String.length marker) c in
      match Py.find marker rest with
      | None => rest
      | Some j => Py.take j rest
      end
  end.


(** The table a turn holding the marker stands for on the page: lines
    147-148, [int] of the segment and then the list access. *)
Definition resolve (dfs : list DataFrame) (c : string) : Py.exn + DataFrame :=
  match Py.int (segment c) with
  | inl e => inl e
  | inr i => Py.getitem dfs i
  end.

(** The script run once per element of [inputs], the session state carried
    from one run to the next; an exception ends only the run it is raised
    in. *)
Fixpoint session_after (inputs : list (agents * option string))
  (s : session_state) : session_state :=
  match inputs with
  | [] => s
  | (ag, q) :: rest => session_after rest (session (snd (run (script_run ag q) s)))
  end.

(** The questions [qs] handled one after the other. *)
Fixpoint handle_questions (qs : list (agents * string)) : M unit :=
  match qs with
  | [] => ret tt
  | (ag, q) :: rest => handle_question ag q ;; handle_questions rest
  end.

(** The turn of line 232 for the index [k]. *)
Definition ref_turn (k : nat) : message := mkMessage ai (dataframe_ref k).

(** Whether handling [q] stores a table: the SQL agent returned and its
    query text counts as true (line 222). *)
Definition stores_table (ag : agents) (q : string) : bool :=
  match sql_data_analyst ag q with
  | inr res => Py.truthy_str (get_sql_query_code res)
  | inl _ => false
  end.

Fixpoint tables_stored (qs : list (agents * string)) : nat :=
  match qs with
  | [] => 0
  | (ag, q) :: rest => (if stores_table ag q then 1 else 0) + tables_stored rest
  end.




(** Whether every character of [s] is a decimal digit. *)
Fixpoint all_digits (s : string) : bool :=
  match s with
  | EmptyString => true
  | String c s' =>
      match Py.digit_of c with
      | Some _ => all_digits s'
      | None => false
      end
  end.

(** The table references of a session state are those of 0, 1, ... up to the
    size of its store, in order. *)
Definition refs_contiguous (s : session_state) : Prop :=
  table_refs (langchain_messages s)
    = map ref_turn (seq 0 (length (dataframes s))).

(** ** Sample inputs *)

(** Agents that answer the same whatever they are asked. *)
Definition agents_of (sql : Py.exn + sql_result) (viz : Py.exn + plotly_graph) : agents :=
  mkAgents (fun _ => sql) (fun _ _ => viz).

Definition count_question : string := "How many rows in table X?".

Definition count_query : string := "SELECT COUNT(*) FROM X".

Definition count_table : DataFrame := mkDataFrame ["count"%string] [["42"%string]].

Definition empty_table : DataFrame := mkDataFrame ["count"%string] [].

Definition bar_chart : plotly_graph := GraphFigure "bar".


(** The trace of one question handled in the session state [s]. *)
Definition question_trace (ag : agents) (q : string) (s : session_state) : list event :=
  trace (snd (run (handle_question ag q) s)).

(** The session state after one question handled in [s]. *)
Definition question_session (ag : agents) (q : string) (s : session_state) : session_state :=
  session (snd (run (handle_question ag q) s)).

(** ** Statements the script does not meet, kept to be refuted *)

(** The visualisation agent runs only for a table with rows and a query
    with text. *)
Definition viz_only_for_nonempty_table (ag : agents) (q : string) (s : session_state) : Prop :=
  forall res,
    sql_data_analyst ag q = inr res ->
    0 < viz_invocations (question_trace ag q s) ->
    df_empty (get_data_sql res) = false /\
    Py.truthy_str (get_sql_query_code res) = true.



(** Every SQL step that returns leaves the two turns and the table, whatever
    its query text. *)
Definition two_turns_whatever_the_query (ag : agents) (q : string) (s : session_state) : Prop :=
  forall res,
    sql_data_analyst ag q = inr res ->
    exists sql_turn ref_turn rest,
      assistant_turns (question_trace ag q s) = sql_turn :: ref_turn :: rest /\
      stored_tables (question_trace ag q s) = [get_data_sql res].



(** ** The whole script, from the database connection on *)

(** What the script asks of its surroundings before the chat: the two calls
    that open the database, the text of the API key field of the sidebar
    (empty when nothing was typed) and the call that lists the models. *)
Record environment := mkEnv {
  create_engine : string -> Py.exn + unit;
  engine_connect : Py.exn + unit;
  api_key_input : string;
  models_list : string -> Py.exn + unit
}.

(** The session state with the two keys lines 74 and 97 write. *)
Record app_state := mkApp {
  PATH_DB_key : option string;
  OPENAI_API_KEY : option string;
  chat : session_state
}.

(** The effects of a whole run: those of the chat, and those only the
    start of the script has. *)
Inductive page_event :=
| Core (e : event)
| CreateEngine (url : string)      (* sql.create_engine *)
| EngineConnect                    (* sql_engine.connect *)
| ModelsList (api_key : string)    (* client.models.list *)
| StSuccess (text : string)
| StInfo (text : string)
| StStop.                          (* st.stop *)

(** How a run ends: at its last line, at an [st.stop()], or with an
    exception no handler caught. *)
Inductive outcome := Finished | Stopped | Raised (e : Py.exn).

Definition key_missing_text : string := "Please enter your OpenAI API Key to proceed.".

(** Lines 81-87: the [try] body that opens the database. *)
Definition open_database (env : environment) : (Py.exn + unit) * list page_event :=
  match create_engine env PATH_DB with
  | inl e => (inl e, [CreateEngine PATH_DB])
  | inr _ =>
      match engine_connect env with
      | inl e =>
          (inl e,
           [CreateEngine PATH_DB;
            Core (Log DEBUG "SQL Engine created successfully");
            EngineConnect])
      | inr _ =>
          (inr tt,
           [CreateEngine PATH_DB;
            Core (Log DEBUG "SQL Engine created successfully");
            EngineConnect;
            Core (Log DEBUG "Database connection established")])
      end
  end.

(** Lines 100-110: the check of a key that was typed. *)
Definition test_api_key (env : environment) (key : string) : list page_event :=
  match models_list env key with
  | inr _ => [ModelsList key; StSuccess "API Key is valid!"]
  | inl e => [ModelsList key; Core (StError ("Invalid API Key: " +++ Py.str e))]
  end.

(** Lines 134-153: the greeting of an empty history, then the rendering. *)
Definition open_chat : M unit :=
  l <- get_messages ;;
  (if (length l =? 0)%nat then add_ai_message greeting else ret tt) ;;
  display_chat_history.

(** Lines 182-262, entered with the chat in the world [w] and the key
    [key] in the session state. *)
Definition ask (ag : agents) (key : string) (question : option string) (w : world)
  : outcome * world * list page_event :=
  match question with
  | Some q =>
      if Py.truthy_str (Some PATH_DB) && Py.truthy_str question then
        if negb (Py.truthy_str (Some key)) then
          (Stopped, w, [Core (StError key_missing_text); StStop])
        else
          match handle_question ag q w with
          | (inl e, w') => (Raised e, w', [])
          | (inr _, w') => (Finished, w', [])
          end
      else (Finished, w, [])
  | None => (Finished, w, [])
  end.

(** One run of the script, lines 69-262.  The effects of the chat part are
    listed after those of the start, in the order they happen; the two
    effects of line 185-186 come last when they happen. *)
Definition app_run (env : environment) (ag : agents) (question : option string)
  (a : app_state) : outcome * app_state * list page_event :=
  let a1 := mkApp (Some PATH_DB) (OPENAI_API_KEY a) (chat a) in
  let t0 := [Core (Log DEBUG ("Attempting to connect to database at: " +++ db_path))] in
  match open_database env with
  | (inl e, t1) =>
      (Stopped, a1,
       t0 ++ t1
          ++ [Core (Log ERROR ("Database connection failed: " +++ Py.str e));
              Core (StError ("Database connection error: " +++ Py.str e));
              StStop])
  | (inr _, t1) =>
      let key := api_key_input env in
      let a2 := mkApp (Some PATH_DB) (Some key) (chat a) in
      if Py.truthy_str (Some key) then
        let t2 := test_api_key env key in
        match open_chat (mkWorld (chat a) []) with
        | (inl e, w1) =>
            (Raised e, mkApp (Some PATH_DB) (Some key) (session w1),
             t0 ++ t1 ++ t2 ++ map Core (trace w1))
        | (inr _, w1) =>
            match ask ag key question w1 with
            | (o, w2, t3) =>
                (o, mkApp (Some PATH_DB) (Some key) (session w2),
                 t0 ++ t1 ++ t2 ++ map Core (trace w2) ++ t3)
            end
        end
      else
        (Stopped, a2, t0 ++ t1 ++ [StInfo key_missing_text; StStop])
  end.

(** A session as the browser opens it: no key written yet. *)
Definition new_app : app_state := mkApp None None new_session.

(** ** More readings of a trace *)

(** How often the SQL agent was called. *)
Fixpoint sql_invocations (tr : list event) : nat :=
  match tr with
  | [] => 0
  | InvokeSql _ :: tr' => S (sql_invocations tr')
  | _ :: tr' => sql_invocations tr'
  end.

(** An element put inside a chat bubble: all the rendering of the history
    may produce. *)
Definition is_bubble (e : event) : bool :=
  match e with
  | StWrite (ChatMessage _) _ | StDataframe (ChatMessage _) _ => true
  | _ => false
  end.

(** The effects of the chat part within those of a whole run. *)
Fixpoint core_events (t : list page_event) : list event :=
  match t with
  | [] => []
  | Core e :: t' => e :: core_events t'
  | _ :: t' => core_events t'
  end.

(** A turn the page can show in a session state with the tables [dfs]:
    text without the marker, or a marker that resolves. *)
Definition renders (dfs : list DataFrame) (msg : message) : Prop :=
  Py.contains marker (content msg) = true ->
  exists df, resolve dfs (content msg) = inr df.

(** A history in which the marker only occurs in references to tables of
    the store. *)
Definition healthy (s : session_state) : Prop :=
  forall msg, In msg (langchain_messages s) ->
    Py.contains marker (content msg) = true ->
    exists k, msg = ref_turn k /\ k < length (dataframes s).

(** A question whose text, whose SQL text and whose error message are free
    of the marker. *)
Definition marker_free (ag : agents) (q : string) : Prop :=
  Py.contains marker q = false /\
  match sql_data_analyst ag q with
  | inl e => Py.contains marker (Py.str e) = false
  | inr res =>
      match get_sql_query_code res with
      | Some sql => Py.contains marker sql = false
      | None => True
      end
  end.

(** An input of a run whose question, if there is one, is free of the
    marker. *)
Definition marker_free_input (i : agents * option string) : Prop :=
  match snd i with
  | Some q => marker_free (fst i) q
  | None => True
  end.

(** Whether the character [c] occurs in [s]. *)
Fixpoint occurs (c : ascii) (s : string) : bool :=
  match s with
  | EmptyString => false
  | String x s' => Ascii.eqb c x || occurs c s'
  end.

(** [sep.join(pieces)]. *)
Fixpoint join (sep : string) (pieces : list string) : string :=
  match pieces with
  | [] => EmptyString
  | [p] => p
  | p :: rest => p +++ sep +++ join sep rest
  end.

(** * Properties *)

(** ** The five ways through [handle_question] *)

Ltac unfold_script :=
  unfold handle_question, question_prologue, sql_success_events, log_question,
    ainvoke_agent, invoke_agent, try_except, bind, lift, emit, ret,
    add_user_message, add_ai_message, add_message, get_dataframes,
    dataframes_append.

Ltac step_script :=
  cbn [session trace langchain_messages dataframes app fst snd
       get_sql_query_code get_data_sql fmt].

Ltac finish_script :=
  step_script; rewrite <- ?app_assoc; step_script; reflexivity.

(** The SQL agent raised [e]. *)
Lemma handle_sql_failed ag q e w :
  sql_data_analyst ag q = inl e ->
  handle_question ag q w =
    (inr tt,
     mkWorld
       (mkSession
          (langchain_messages (session w)
             ++ [mkMessage human q; mkMessage ai (response_text e)])
          (dataframes (session w)))
       (trace w ++ question_prologue q
          ++ [Print (Py.str e);
              AddMessage (mkMessage ai (response_text e));
              StWrite (ChatMessage ai) (response_text e);
              StError ("Error: " +++ Py.str e)])).
Proof.
  intros Hsql. unfold_script.
  destruct (Py.truthy_str (Some q)); step_script; rewrite Hsql; finish_script.
Qed.

(** The SQL agent returned, with no query text. *)
Lemma handle_no_query ag q res w :
  sql_data_analyst ag q = inr res ->
  Py.truthy_str (get_sql_query_code res) = false ->
  handle_question ag q w =
    (inr tt,
     mkWorld
       (mkSession (langchain_messages (session w) ++ [mkMessage human q])
                  (dataframes (session w)))
       (trace w ++ question_prologue q
          ++ [Log DEBUG "Question processed successfully"])).
Proof.
  intros Hsql Hq. unfold_script.
  destruct (Py.truthy_str (Some q)); step_script; rewrite Hsql; step_script; rewrite Hq; finish_script.
Qed.

(** The SQL agent returned the query [sql]; the visualisation agent raised. *)
Lemma handle_viz_failed ag q res sql e w :
  sql_data_analyst ag q = inr res ->
  get_sql_query_code res = Some sql ->
  Py.truthy_str (Some sql) = true ->
  data_visualization_agent ag q (get_data_sql res) = inl e ->
  handle_question ag q w =
    (inr tt,
     mkWorld
       (mkSession
          (langchain_messages (session w)
             ++ [mkMessage human q;
                 mkMessage ai (response_1 sql);
                 mkMessage ai (dataframe_ref (length (dataframes (session w))))])
          (dataframes (session w) ++ [get_data_sql res]))
       (trace w ++ question_prologue q
          ++ sql_success_events sql (get_data_sql res) (length (dataframes (session w)))
          ++ [InvokeViz q (get_data_sql res);
              Log ERROR ("Visualization failed: " +++ Py.str e);
              StError ("Failed to create visualization: " +++ Py.str e)])).
Proof.
  intros Hsql Hcode Hq Hviz. unfold_script.
  destruct (Py.truthy_str (Some q)); step_script; rewrite Hsql; step_script; rewrite Hcode, Hq;
    step_script; rewrite Hviz; finish_script.
Qed.

(** Both agents returned, the second one with nothing to plot. *)
Lemma handle_no_chart ag q res sql g w :
  sql_data_analyst ag q = inr res ->
  get_sql_query_code res = Some sql ->
  Py.truthy_str (Some sql) = true ->
  data_visualization_agent ag q (get_data_sql res) = inr g ->
  truthy_graph g = false ->
  handle_question ag q w =
    (inr tt,
     mkWorld
       (mkSession
          (langchain_messages (session w)
             ++ [mkMessage human q;
                 mkMessage ai (response_1 sql);
                 mkMessage ai (dataframe_ref (length (dataframes (session w))))])
          (dataframes (session w) ++ [get_data_sql res]))
       (trace w ++ question_prologue q
          ++ sql_success_events sql (get_data_sql res) (length (dataframes (session w)))
          ++ [InvokeViz q (get_data_sql res)])).
Proof.
  intros Hsql Hcode Hq Hviz Hg. unfold_script.
  destruct (Py.truthy_str (Some q)); step_script; rewrite Hsql; step_script; rewrite Hcode, Hq;
    step_script; rewrite Hviz; step_script; rewrite Hg; finish_script.
Qed.

(** Both agents returned, the second one with the chart [g]. *)
Lemma handle_chart ag q res sql g w :
  sql_data_analyst ag q = inr res ->
  get_sql_query_code res = Some sql ->
  Py.truthy_str (Some sql) = true ->
  data_visualization_agent ag q (get_data_sql res) = inr g ->
  truthy_graph g = true ->
  handle_question ag q w =
    (inr tt,
     mkWorld
       (mkSession
          (langchain_messages (session w)
             ++ [mkMessage human q;
                 mkMessage ai (response_1 sql);
                 mkMessage ai (dataframe_ref (length (dataframes (session w))));
                 mkMessage ai viz_response])
          (dataframes (session w) ++ [get_data_sql res]))
       (trace w ++ question_prologue q
          ++ sql_success_events sql (get_data_sql res) (length (dataframes (session w)))
          ++ [InvokeViz q (get_data_sql res);
              StPlotlyChart g;
              AddMessage (mkMessage ai viz_response);
              StWrite (ChatMessage ai) viz_response])).
Proof.
  intros Hsql Hcode Hq Hviz Hg. unfold_script.
  destruct (Py.truthy_str (Some q)); step_script; rewrite Hsql; step_script; rewrite Hcode, Hq;
    step_script; rewrite Hviz; step_script; rewrite Hg; finish_script.
Qed.

(** ** Traces and the session state *)

Lemma appended_turns_app tr1 tr2 :
  appended_turns (tr1 ++ tr2) = appended_turns tr1 ++ appended_turns tr2.
Proof.
  induction tr1 as [|e tr1 IH]; [reflexivity|].
  destruct e; cbn; rewrite IH; reflexivity.
Qed.

Lemma stored_tables_app tr1 tr2 :
  stored_tables (tr1 ++ tr2) = stored_tables tr1 ++ stored_tables tr2.
Proof.
  induction tr1 as [|e tr1 IH]; [reflexivity|].
  destruct e; cbn; rewrite IH; reflexivity.
Qed.

Lemma viz_invocations_app tr1 tr2 :
  viz_invocations (tr1 ++ tr2) = viz_invocations tr1 + viz_invocations tr2.
Proof.
  induction tr1 as [|e tr1 IH]; [reflexivity|].
  destruct e; cbn; rewrite IH; reflexivity.
Qed.

Lemma replay_app tr1 tr2 s :
  replay (tr1 ++ tr2) s = replay tr2 (replay tr1 s).
Proof. apply fold_left_app. Qed.

Lemma replay_messages tr : forall s,
  langchain_messages (replay tr s) = langchain_messages s ++ appended_turns tr.
Proof.
  induction tr as [|e tr IH]; intros s; cbn.
  - now rewrite app_nil_r.
  - unfold replay in IH. rewrite IH.
    destruct e; cbn; rewrite <- ?app_assoc; reflexivity.
Qed.

Lemma replay_dataframes tr : forall s,
  dataframes (replay tr s) = dataframes s ++ stored_tables tr.
Proof.
  induction tr as [|e tr IH]; intros s; cbn.
  - now rewrite app_nil_r.
  - unfold replay in IH. rewrite IH.
    destruct e; cbn; rewrite <- ?app_assoc; reflexivity.
Qed.

Lemma session_eta s :
  s = mkSession (langchain_messages s) (dataframes s).
Proof. now destruct s. Qed.

Lemma replay_eq tr s :
  replay tr s =
    mkSession (langchain_messages s ++ appended_turns tr)
              (dataframes s ++ stored_tables tr).
Proof.
  rewrite (session_eta (replay tr s)).
  now rewrite replay_messages, replay_dataframes.
Qed.


Lemma traced_ret {A} (a : A) : traced (ret a).
Proof. intros w. exists []. cbn. now rewrite app_nil_r. Qed.

Lemma traced_lift {A} (r : Py.exn + A) : traced (lift r).
Proof. intros w. exists []. cbn. now rewrite app_nil_r. Qed.

Lemma traced_get_messages : traced get_messages.
Proof. intros w. exists []. cbn. now rewrite app_nil_r. Qed.

Lemma traced_get_dataframes : traced get_dataframes.
Proof. intros w. exists []. cbn. now rewrite app_nil_r. Qed.

Lemma traced_emit e :
  (forall s, apply_event s e = s) -> traced (emit e).
Proof. intros He w. exists [e]. cbn. now rewrite He. Qed.

Lemma traced_add_message m : traced (add_message m).
Proof. intros w. now exists [AddMessage m]. Qed.

Lemma traced_dataframes_append df : traced (dataframes_append df).
Proof. intros w. now exists [AppendDataframe df]. Qed.

Lemma traced_bind {A B} (m : M A) (k : A -> M B) :
  traced m -> (forall a, traced (k a)) -> traced (bind m k).
Proof.
  intros Hm Hk w. unfold bind.
  destruct (Hm w) as (tr1 & Ht1 & Hs1).
  destruct (m w) as [[e|a] w1]; cbn in *.
  - now exists tr1.
  - destruct (Hk a w1) as (tr2 & Ht2 & Hs2).
    exists (tr1 ++ tr2). rewrite Ht2, Hs2, Ht1, Hs1, replay_app.
    now rewrite app_assoc.
Qed.

Lemma traced_try_except {A} (body : M A) (handler : Py.exn -> M A) :
  traced body -> (forall e, traced (handler e)) -> traced (try_except body handler).
Proof.
  intros Hb Hh w. unfold try_except.
  destruct (Hb w) as (tr1 & Ht1 & Hs1).
  destruct (body w) as [[e|a] w1]; cbn in *.
  - destruct (Hh e w1) as (tr2 & Ht2 & Hs2).
    exists (tr1 ++ tr2). rewrite Ht2, Hs2, Ht1, Hs1, replay_app.
    now rewrite app_assoc.
  - now exists tr1.
Qed.

Create HintDb traced.
#[local] Hint Resolve traced_ret traced_lift traced_get_messages
  traced_get_dataframes traced_add_message traced_dataframes_append : traced.

Ltac traced_step :=
  first
    [ apply traced_bind; [|intros ?]
    | apply traced_try_except; [|intros ?]
    | apply traced_emit; intros ?; reflexivity
    | solve [auto with traced]
    | match goal with |- traced (if ?b then _ else _) => destruct b end
    | match goal with |- traced (match ?x with _ => _ end) => destruct x end ].

Lemma traced_display_message msg : traced (display_message msg).
Proof. unfold display_message. repeat traced_step. Qed.

Lemma traced_display_messages l : traced (display_messages l).
Proof.
  induction l as [|msg l IH]; cbn.
  - apply traced_ret.
  - apply traced_bind; [apply traced_display_message | intros _; exact IH].
Qed.

Lemma traced_handle_question ag q : traced (handle_question ag q).
Proof.
  unfold handle_question, ainvoke_agent, invoke_agent, add_user_message,
    add_ai_message.
  repeat traced_step.
Qed.

Lemma traced_script_run ag q : traced (script_run ag q).
Proof.
  unfold script_run, display_chat_history, add_ai_message.
  repeat first [ apply traced_display_messages
               | apply traced_handle_question
               | traced_step ].
Qed.

(** ** Strings *)

Lemma prefix_length sub : forall s,
  String.prefix sub s = true -> String.length sub <= String.length s.
Proof.
  induction sub as [|a sub IH]; intros s H; cbn; [lia|].
  destruct s as [|b s]; cbn in H; [discriminate|].
  destruct (ascii_dec a b); [|discriminate].
  apply IH in H. cbn. lia.
Qed.

Lemma find_unfold sub s :
  Py.find sub s =
    if String.prefix sub s then Some 0
    else match s with
         | EmptyString => None
         | String _ s' => option_map S (Py.find sub s')
         end.
Proof. destruct s; reflexivity. Qed.

Lemma find_bound sub : forall s i,
  Py.find sub s = Some i -> i + String.length sub <= String.length s.
Proof.
  induction s as [|c s IH]; intros i H; rewrite find_unfold in H.
  - destruct (String.prefix sub EmptyString) eqn:Hp; [|discriminate].
    injection H as <-. now apply prefix_length in Hp.
  - destruct (String.prefix sub (String c s)) eqn:Hp.
    + injection H as <-. now apply prefix_length in Hp.
    + destruct (Py.find sub s) as [j|] eqn:Hj; [|discriminate].
      injection H as <-. specialize (IH j eq_refl). cbn. lia.
Qed.

(** [content.split(marker)[1]] never raises once the marker is in
    [content], and is the segment after the first marker. *)
Lemma split_marker_second c :
  Py.contains marker c = true ->
  nth_error (Py.split marker c) 1 = Some (segment c).
Proof.
  unfold Py.contains, segment, Py.split. intros H.
  destruct (Py.find marker c) as [i|] eqn:Hi; [clear H|discriminate].
  pose proof (find_bound _ _ _ Hi) as Hlen. cbn [String.length marker] in Hlen.
  destruct (String.length c) as [|[|n]] eqn:Hn; cbn in Hlen; try lia.
  cbn [Py.split_fuel]. rewrite Hi. cbn [nth_error].
  now destruct (Py.find marker (Py.drop _ _)).
Qed.

(** ** Rendering the chat history *)


(** A turn that holds the marker is never written as text: it shows the
    table it resolves to, or raises. *)
Lemma display_message_marker msg w :
  Py.contains marker (content msg) = true ->
  display_message msg w =
    match resolve (dataframes (session w)) (content msg) with
    | inl e => (inl e, w)
    | inr df =>
        (inr tt,
         mkWorld (session w)
                 (trace w ++ [StDataframe (ChatMessage (type msg)) df]))
    end.
Proof.
  intros Hc. unfold display_message, resolve. rewrite Hc.
  unfold bind, lift, get_dataframes, emit.
  rewrite (split_marker_second _ Hc).
  destruct (Py.int (segment (content msg))) as [e|i]; [reflexivity|].
  now destruct (Py.getitem (dataframes (session w)) i).
Qed.

Lemma display_message_text msg w :
  Py.contains marker (content msg) = false ->
  display_message msg w =
    (inr tt,
     mkWorld (session w)
             (trace w ++ [StWrite (ChatMessage (type msg)) (content msg)])).
Proof. intros Hc. unfold display_message. now rewrite Hc. Qed.

Lemma display_message_session msg w :
  session (snd (display_message msg w)) = session w.
Proof.
  destruct (Py.contains marker (content msg)) eqn:Hc.
  - rewrite (display_message_marker _ _ Hc).
    now destruct (resolve _ _).
  - now rewrite (display_message_text _ _ Hc).
Qed.

Lemma display_messages_session l : forall w,
  session (snd (display_messages l w)) = session w.
Proof.
  induction l as [|msg l IH]; intros w; [reflexivity|].
  cbn [display_messages]. unfold bind.
  pose proof (display_message_session msg w) as Hs.
  destruct (display_message msg w) as [[e|u] w1]; cbn in *; [assumption|].
  now rewrite IH.
Qed.


(** ** A reference written by the script reads back *)

Lemma digit_not_space c :
  Py.digit_of c <> None -> Py.is_space c = false.
Proof.
  destruct c as [[] [] [] [] [] [] [] []]; vm_compute; congruence.
Qed.

Lemma digit_not_sign c :
  Py.digit_of c <> None -> c <> "-"%char /\ c <> "+"%char /\ c <> "D"%char.
Proof.
  destruct c as [[] [] [] [] [] [] [] []]; vm_compute; intros H;
    repeat split; congruence.
Qed.

Lemma all_digits_cons c s :
  all_digits (String c s) = true -> Py.digit_of c <> None /\ all_digits s = true.
Proof.
  cbn [all_digits]. destruct (Py.digit_of c); [split; congruence | discriminate].
Qed.

Lemma digits_of_uint d : all_digits (NilEmpty.string_of_uint d) = true.
Proof. induction d; cbn [NilEmpty.string_of_uint]; trivial. Qed.

Lemma str_of_nat_digits k :
  all_digits (Py.str_of_nat k) = true /\ Py.str_of_nat k <> EmptyString.
Proof.
  unfold Py.str_of_nat, NilZero.string_of_uint.
  destruct (Nat.to_uint k); (split; [apply digits_of_uint || reflexivity|]);
    cbn; discriminate.
Qed.

Lemma lstrip_digits s : all_digits s = true -> Py.lstrip s = s.
Proof.
  destruct s as [|c s]; [reflexivity|].
  intros H. apply all_digits_cons in H as [Hc _].
  cbn [Py.lstrip]. now rewrite (digit_not_space _ Hc).
Qed.

Lemma rev_onto_digits s : forall acc,
  all_digits s = true -> all_digits acc = true ->
  all_digits (Py.rev_onto s acc) = true.
Proof.
  induction s as [|c s IH]; intros acc Hs Hacc; [exact Hacc|].
  cbn [Py.rev_onto]. apply IH.
  - now apply all_digits_cons in Hs.
  - cbn [all_digits] in Hs |- *. destruct (Py.digit_of c); [assumption|discriminate].
Qed.

Lemma rev_onto_twice s : forall acc,
  Py.rev_onto (Py.rev_onto s acc) EmptyString = Py.rev_onto acc s.
Proof.
  induction s as [|c s IH]; intros acc; [reflexivity|].
  cbn [Py.rev_onto]. now rewrite IH.
Qed.

Lemma strip_digits s : all_digits s = true -> Py.strip s = s.
Proof.
  intros H. unfold Py.strip. rewrite (lstrip_digits _ H).
  rewrite lstrip_digits by now apply rev_onto_digits.
  unfold Py.rev. now rewrite rev_onto_twice.
Qed.

Lemma parse_digits_uint d : forall acc need_digit,
  d <> Decimal.Nil \/ need_digit = false ->
  Py.parse_digits (Z.of_nat acc) need_digit (NilEmpty.string_of_uint d)
    = Some (Z.of_nat (Nat.of_uint_acc d acc)).
Proof.
  induction d; intros acc need_digit Hd;
    cbn [NilEmpty.string_of_uint Py.parse_digits Nat.of_uint_acc].
  1: { destruct Hd as [Hd| ->]; [contradiction|reflexivity]. }
  all: change (Py.digit_of _) with (Some (Z.of_nat 0))
       || change (Py.digit_of _) with (Some (Z.of_nat 1))
       || change (Py.digit_of _) with (Some (Z.of_nat 2))
       || change (Py.digit_of _) with (Some (Z.of_nat 3))
       || change (Py.digit_of _) with (Some (Z.of_nat 4))
       || change (Py.digit_of _) with (Some (Z.of_nat 5))
       || change (Py.digit_of _) with (Some (Z.of_nat 6))
       || change (Py.digit_of _) with (Some (Z.of_nat 7))
       || change (Py.digit_of _) with (Some (Z.of_nat 8))
       || change (Py.digit_of _) with (Some (Z.of_nat 9)).
  all: cbv iota beta.
  all: match goal with
       | |- Py.parse_digits ?z false _ = Some (Z.of_nat (Nat.of_uint_acc _ ?a)) =>
           replace z with (Z.of_nat a)
             by (rewrite Nat.tail_mul_spec; lia)
       end.
  all: apply IHd; now right.
Qed.

(** [int(f"{k}")] is [k]. *)
Lemma int_str_of_nat k : Py.int (Py.str_of_nat k) = inr (Z.of_nat k).
Proof.
  destruct (str_of_nat_digits k) as [Hdigits Hne].
  unfold Py.int. rewrite (strip_digits _ Hdigits).
  assert (Hparse : Py.parse_digits 0 true (Py.str_of_nat k) = Some (Z.of_nat k)).
  { unfold Py.str_of_nat, NilZero.string_of_uint.
    pose proof (DecimalNat.Unsigned.of_to k) as Hk. unfold Nat.of_uint in Hk.
    destruct (Nat.to_uint k) eqn:Hu;
      [cbn in Hk; subst k; reflexivity | ..];
      rewrite <- Hk; apply (parse_digits_uint _ 0 true); left; discriminate. }
  destruct (Py.str_of_nat k) as [|c rest]; [contradiction|].
  apply all_digits_cons in Hdigits as [Hc _].
  destruct (digit_not_sign _ Hc) as (Hminus & Hplus & _).
  assert (Hbody : match String c rest with
                  | String "-" r => option_map Z.opp (Py.parse_digits 0 true r)
                  | String "+" r => Py.parse_digits 0 true r
                  | _ => Py.parse_digits 0 true (String c rest)
                  end = Py.parse_digits 0 true (String c rest)).
  { destruct c as [[] [] [] [] [] [] [] []]; try reflexivity; congruence. }
  rewrite Hbody, Hparse. reflexivity.
Qed.

Lemma str_of_nat_inj a b : Py.str_of_nat a = Py.str_of_nat b -> a = b.
Proof.
  intros H. pose proof (int_str_of_nat a) as Ha.
  rewrite H, int_str_of_nat in Ha. injection Ha. lia.
Qed.

Lemma find_none_digits s : all_digits s = true -> Py.find marker s = None.
Proof.
  induction s as [|c s IH]; intros H; [reflexivity|].
  apply all_digits_cons in H as [Hc Hs].
  rewrite find_unfold, (IH Hs).
  destruct (digit_not_sign _ Hc) as (_ & _ & HD).
  unfold marker. cbn [String.prefix].
  destruct (ascii_dec "D" c) as [Heq|_]; [congruence|reflexivity].
Qed.

(** The segment of a reference turn is the index as the script wrote it. *)
Lemma segment_dataframe_ref k : segment (dataframe_ref k) = Py.str_of_nat k.
Proof.
  destruct (str_of_nat_digits k) as [Hdigits _].
  unfold segment, dataframe_ref.
  assert (Hfind : Py.find marker (marker +++ Py.str_of_nat k) = Some 0).
  { rewrite find_unfold. unfold marker. cbn.
    now destruct (Py.str_of_nat k). }
  rewrite Hfind. cbn [Nat.add].
  change (Py.drop (String.length marker) (marker +++ Py.str_of_nat k))
    with (Py.str_of_nat k).
  now rewrite (find_none_digits _ Hdigits).
Qed.

(** A reference to a position of the store resolves to the table there. *)
Lemma resolve_dataframe_ref dfs k df :
  nth_error dfs k = Some df -> resolve dfs (dataframe_ref k) = inr df.
Proof.
  intros Hnth. unfold resolve.
  rewrite segment_dataframe_ref, int_str_of_nat. unfold Py.getitem.
  assert (Hlt : k < length dfs) by (apply nth_error_Some; congruence).
  destruct (Z.of_nat k <? 0)%Z eqn:Hneg; [apply Z.ltb_lt in Hneg; lia|].
  destruct ((Z.of_nat k <? 0) || (Z.of_nat (length dfs) <=? Z.of_nat k))%Z eqn:Hout.
  - apply orb_true_iff in Hout as [H|H];
      [apply Z.ltb_lt in H | apply Z.leb_le in H]; lia.
  - now rewrite Nat2Z.id, Hnth.
Qed.

Lemma contains_dataframe_ref k : Py.contains marker (dataframe_ref k) = true.
Proof.
  unfold Py.contains, dataframe_ref. rewrite find_unfold.
  unfold marker. cbn. now destruct (Py.str_of_nat k).
Qed.

(** ** One question *)

Ltac read_trace :=
  unfold question_trace, question_session, run;
  repeat match goal with
  | H : handle_question _ _ _ = _ |- _ => rewrite H; clear H
  end;
  unfold assistant_turns, question_prologue, log_question, sql_success_events;
  repeat match goal with
  | |- context [Py.truthy_str (Some ?q)] => destruct (Py.truthy_str (Some q))
  end;
  cbn [app appended_turns stored_tables viz_invocations warnings charts_shown
       filter is_ai type snd fst trace session langchain_messages dataframes
       length].

(** Whatever the agents do, the handler itself never raises. *)
Lemma handle_question_returns ag q w :
  fst (handle_question ag q w) = inr tt.
Proof.
  destruct (sql_data_analyst ag q) as [e|res] eqn:Hsql.
  - now rewrite (handle_sql_failed _ _ _ _ Hsql).
  - destruct (Py.truthy_str (get_sql_query_code res)) eqn:Hq.
    + destruct (get_sql_query_code res) as [sql|] eqn:Hcode; [|discriminate].
      destruct (data_visualization_agent ag q (get_data_sql res)) as [e|g] eqn:Hviz.
      * now rewrite (handle_viz_failed _ _ _ _ _ _ Hsql Hcode Hq Hviz).
      * destruct (truthy_graph g) eqn:Hg.
        -- now rewrite (handle_chart _ _ _ _ _ _ Hsql Hcode Hq Hviz Hg).
        -- now rewrite (handle_no_chart _ _ _ _ _ _ Hsql Hcode Hq Hviz Hg).
    + now rewrite (handle_no_query _ _ _ _ Hsql Hq).
Qed.

(** C5.  When the SQL agent raises, the visualisation agent is not called,
    the one assistant turn appended is the apology that carries the text of
    the exception, and the list of data frames is as it was. *)
Theorem sql_failure_one_turn ag q s e :
  sql_data_analyst ag q = inl e ->
  viz_invocations (question_trace ag q s) = 0 /\
  assistant_turns (question_trace ag q s) = [mkMessage ai (response_text e)] /\
  (exists before after, response_text e = before +++ Py.str e +++ after) /\
  stored_tables (question_trace ag q s) = [] /\
  dataframes (question_session ag q s) = dataframes s /\
  langchain_messages (question_session ag q s) =
    langchain_messages s ++ [mkMessage human q; mkMessage ai (response_text e)].
Proof.
  intros Hsql.
  pose proof (handle_sql_failed ag q e (mkWorld s []) Hsql) as H.
  repeat apply conj; try (read_trace; reflexivity).
  now exists apology, (Py.nl +++ indent).
Qed.

Lemma sql_failure_one_turn_witness :
  sql_data_analyst (agents_of (inl (Py.Exception "no such table: X")) (inr bar_chart))
    count_question = inl (Py.Exception "no such table: X") /\
  viz_invocations
    (question_trace (agents_of (inl (Py.Exception "no such table: X")) (inr bar_chart))
       count_question new_session) = 0.
Proof.
  split; [reflexivity|].
  exact (proj1 (sql_failure_one_turn
                  (agents_of (inl (Py.Exception "no such table: X")) (inr bar_chart))
                  count_question new_session (Py.Exception "no such table: X")
                  eq_refl)).
Defined.

(** C6.  When the SQL agent returned a query and the visualisation agent
    raises, the failure shows as one [st.error] box and nothing is appended
    to the transcript or the store after the agent was called: the question,
    the SQL text turn, the table reference and the stored table are what the
    session state keeps. *)
Theorem viz_failure_keeps_table ag q s res sql e :
  sql_data_analyst ag q = inr res ->
  get_sql_query_code res = Some sql ->
  Py.truthy_str (Some sql) = true ->
  data_visualization_agent ag q (get_data_sql res) = inl e ->
  warnings (question_trace ag q s)
    = ["Failed to create visualization: " +++ Py.str e] /\
  (exists before after,
     question_trace ag q s = before ++ InvokeViz q (get_data_sql res) :: after /\
     appended_turns after = [] /\
     stored_tables after = [] /\
     replay before s = question_session ag q s) /\
  assistant_turns (question_trace ag q s)
    = [mkMessage ai (response_1 sql);
       mkMessage ai (dataframe_ref (length (dataframes s)))] /\
  langchain_messages (question_session ag q s)
    = langchain_messages s
        ++ [mkMessage human q;
            mkMessage ai (response_1 sql);
            mkMessage ai (dataframe_ref (length (dataframes s)))] /\
  dataframes (question_session ag q s) = dataframes s ++ [get_data_sql res] /\
  nth_error (dataframes (question_session ag q s)) (length (dataframes s))
    = Some (get_data_sql res).
Proof.
  intros Hsql Hcode Hq Hviz.
  pose proof (handle_viz_failed ag q res sql e (mkWorld s []) Hsql Hcode Hq Hviz) as H.
  split; [read_trace; reflexivity|].
  split.
  - exists (question_prologue q
              ++ sql_success_events sql (get_data_sql res) (length (dataframes s))),
           [Log ERROR ("Visualization failed: " +++ Py.str e);
            StError ("Failed to create visualization: " +++ Py.str e)].
    split; [|split; [reflexivity|split; [reflexivity|]]].
    + unfold question_trace, run. rewrite H. cbn [snd trace session app].
      now rewrite <- app_assoc.
    + rewrite replay_eq. read_trace; reflexivity.
  - repeat split; try (read_trace; reflexivity).
    unfold question_session, run. rewrite H. cbn [snd session dataframes].
    rewrite nth_error_app2, Nat.sub_diag; [reflexivity | lia].
Qed.

Lemma viz_failure_keeps_table_witness :
  warnings
    (question_trace
       (agents_of (inr (mkSqlResult (Some count_query) count_table))
                  (inl (Py.Exception "InvalidResult")))
       count_question new_session)
    = ["Failed to create visualization: InvalidResult"%string].
Proof.
  exact (proj1 (viz_failure_keeps_table
                  (agents_of (inr (mkSqlResult (Some count_query) count_table))
                             (inl (Py.Exception "InvalidResult")))
                  count_question new_session
                  (mkSqlResult (Some count_query) count_table) count_query
                  (Py.Exception "InvalidResult")
                  eq_refl eq_refl eq_refl eq_refl)).
Defined.

(** C10.  When the visualisation agent returns nothing to plot and does
    not raise, the call is the last thing that happens: no chart on the
    page, no confirmation turn, no [st.error] box. *)
Theorem no_chart_is_silent ag q s res sql g :
  sql_data_analyst ag q = inr res ->
  get_sql_query_code res = Some sql ->
  Py.truthy_str (Some sql) = true ->
  data_visualization_agent ag q (get_data_sql res) = inr g ->
  truthy_graph g = false ->
  charts_shown (question_trace ag q s) = [] /\
  warnings (question_trace ag q s) = [] /\
  assistant_turns (question_trace ag q s)
    = [mkMessage ai (response_1 sql);
       mkMessage ai (dataframe_ref (length (dataframes s)))] /\
  (exists before,
     question_trace ag q s = before ++ [InvokeViz q (get_data_sql res)] /\
     replay before s = question_session ag q s) /\
  fst (run (handle_question ag q) s) = inr tt.
Proof.
  intros Hsql Hcode Hq Hviz Hg.
  pose proof (handle_no_chart ag q res sql g (mkWorld s []) Hsql Hcode Hq Hviz Hg) as H.
  repeat apply conj; try apply handle_question_returns;
    try (read_trace; reflexivity).
  exists (question_prologue q
            ++ sql_success_events sql (get_data_sql res) (length (dataframes s))).
  split.
  - unfold question_trace, run. rewrite H. cbn [snd trace session app].
    now rewrite <- app_assoc.
  - rewrite replay_eq. read_trace; reflexivity.
Qed.

Lemma no_chart_is_silent_witness :
  charts_shown
    (question_trace
       (agents_of (inr (mkSqlResult (Some count_query) count_table)) (inr GraphNone))
       count_question new_session) = [].
Proof.
  exact (proj1 (no_chart_is_silent
                  (agents_of (inr (mkSqlResult (Some count_query) count_table))
                             (inr GraphNone))
                  count_question new_session
                  (mkSqlResult (Some count_query) count_table) count_query GraphNone
                  eq_refl eq_refl eq_refl eq_refl eq_refl)).
Defined.

(** A query text that counts as true is some non-empty string. *)
Lemma truthy_str_some code :
  Py.truthy_str code = true -> exists sql, code = Some sql.
Proof. destruct code as [sql|]; [now exists sql | discriminate]. Qed.

(** C1, as the script has it.  Once the SQL agent returned, the
    visualisation agent is called once when the query text is non-empty and
    not at all otherwise; the rows of the table play no part. *)
Theorem viz_runs_iff_query_text ag q s res :
  sql_data_analyst ag q = inr res ->
  viz_invocations (question_trace ag q s)
    = if Py.truthy_str (get_sql_query_code res) then 1 else 0.
Proof.
  intros Hsql.
  destruct (Py.truthy_str (get_sql_query_code res)) eqn:Hq.
  - destruct (truthy_str_some _ Hq) as [sql Hcode]. rewrite Hcode in Hq.
    destruct (data_visualization_agent ag q (get_data_sql res)) as [e|g] eqn:Hviz.
    + pose proof (handle_viz_failed ag q res sql e (mkWorld s []) Hsql Hcode Hq Hviz).
      read_trace; reflexivity.
    + destruct (truthy_graph g) eqn:Hg.
      * pose proof (handle_chart ag q res sql g (mkWorld s []) Hsql Hcode Hq Hviz Hg).
        read_trace; reflexivity.
      * pose proof (handle_no_chart ag q res sql g (mkWorld s []) Hsql Hcode Hq Hviz Hg).
        read_trace; reflexivity.
  - pose proof (handle_no_query ag q res (mkWorld s []) Hsql Hq).
    read_trace; reflexivity.
Qed.

Lemma viz_runs_iff_query_text_witness :
  viz_invocations
    (question_trace
       (agents_of (inr (mkSqlResult (Some count_query) empty_table)) (inr bar_chart))
       count_question new_session) = 1.
Proof.
  exact (viz_runs_iff_query_text
           (agents_of (inr (mkSqlResult (Some count_query) empty_table)) (inr bar_chart))
           count_question new_session
           (mkSqlResult (Some count_query) empty_table) eq_refl).
Defined.

(** C1 as the claim words it fails: a query that returns no rows is still
    handed to the visualisation agent. *)
Lemma viz_runs_on_empty_table :
  ~ viz_only_for_nonempty_table
      (agents_of (inr (mkSqlResult (Some count_query) empty_table)) (inr bar_chart))
      count_question new_session.
Proof.
  intros H.
  destruct (H (mkSqlResult (Some count_query) empty_table) eq_refl) as [Hrows _].
  - vm_compute. lia.
  - discriminate Hrows.
Qed.




(** C4, as the script has it.  A query text that is non-empty gives the SQL
    text turn, then the reference turn, and the table in the store; an empty
    or missing query text gives no assistant turn and stores nothing. *)
Theorem sql_turns_need_query_text ag q s res :
  sql_data_analyst ag q = inr res ->
  if Py.truthy_str (get_sql_query_code res)
  then firstn 2 (assistant_turns (question_trace ag q s))
         = [mkMessage ai (response_1 (fmt (get_sql_query_code res)));
            mkMessage ai (dataframe_ref (length (dataframes s)))] /\
       stored_tables (question_trace ag q s) = [get_data_sql res] /\
       dataframes (question_session ag q s) = dataframes s ++ [get_data_sql res]
  else assistant_turns (question_trace ag q s) = [] /\
       stored_tables (question_trace ag q s) = [] /\
       question_session ag q s
         = mkSession (langchain_messages s ++ [mkMessage human q]) (dataframes s).
Proof.
  intros Hsql.
  destruct (Py.truthy_str (get_sql_query_code res)) eqn:Hq.
  - destruct (truthy_str_some _ Hq) as [sql Hcode]. rewrite Hcode in Hq |- *.
    cbn [fmt].
    destruct (data_visualization_agent ag q (get_data_sql res)) as [e|g] eqn:Hviz.
    + pose proof (handle_viz_failed ag q res sql e (mkWorld s []) Hsql Hcode Hq Hviz).
      repeat apply conj; read_trace; reflexivity.
    + destruct (truthy_graph g) eqn:Hg.
      * pose proof (handle_chart ag q res sql g (mkWorld s []) Hsql Hcode Hq Hviz Hg).
        repeat apply conj; read_trace; reflexivity.
      * pose proof (handle_no_chart ag q res sql g (mkWorld s []) Hsql Hcode Hq Hviz Hg).
        repeat apply conj; read_trace; reflexivity.
  - pose proof (handle_no_query ag q res (mkWorld s []) Hsql Hq).
    repeat apply conj; read_trace; reflexivity.
Qed.

Lemma sql_turns_need_query_text_witness :
  assistant_turns
    (question_trace
       (agents_of (inr (mkSqlResult (Some EmptyString) count_table)) (inr bar_chart))
       count_question new_session) = [].
Proof.
  exact (proj1 (sql_turns_need_query_text
                  (agents_of (inr (mkSqlResult (Some EmptyString) count_table))
                             (inr bar_chart))
                  count_question new_session
                  (mkSqlResult (Some EmptyString) count_table) eq_refl)).
Defined.

(** C4 as the claim words it fails: the SQL agent returns an empty query
    text with a table, and no turn follows the question. *)
Lemma empty_query_leaves_no_turn :
  ~ two_turns_whatever_the_query
      (agents_of (inr (mkSqlResult (Some EmptyString) count_table)) (inr bar_chart))
      count_question new_session.
Proof.
  intros H.
  destruct (H (mkSqlResult (Some EmptyString) count_table) eq_refl)
    as (t1 & t2 & rest & Hturns & _).
  vm_compute in Hturns. discriminate Hturns.
Qed.

(** ** Which turns are table references *)

Lemma is_table_ref_human text : is_table_ref (mkMessage human text) = false.
Proof. reflexivity. Qed.

Lemma is_table_ref_sql_text sql : is_table_ref (mkMessage ai (response_1 sql)) = false.
Proof. reflexivity. Qed.

Lemma is_table_ref_apology e : is_table_ref (mkMessage ai (response_text e)) = false.
Proof. reflexivity. Qed.

Lemma is_table_ref_confirmation : is_table_ref (mkMessage ai viz_response) = false.
Proof. reflexivity. Qed.

Lemma is_table_ref_ref_turn k : is_table_ref (ref_turn k) = true.
Proof.
  unfold ref_turn, is_table_ref, dataframe_ref. cbn.
  now destruct (Py.str_of_nat k).
Qed.

Lemma table_refs_app l1 l2 :
  table_refs (l1 ++ l2) = table_refs l1 ++ table_refs l2.
Proof. apply filter_app. Qed.




(** ** A sequence of questions *)

Lemma world_from_trace w s' tr :
  s' = replay tr (session w) ->
  (@inr Py.exn unit tt, mkWorld s' (trace w ++ tr))
    = (inr tt, mkWorld (replay tr (session w)) (trace w ++ tr)).
Proof. now intros ->. Qed.

Ltac sum_up_path :=
  eexists; split;
  [ apply world_from_trace; rewrite replay_eq; read_trace;
    rewrite ?app_nil_r; reflexivity
  | unfold table_refs; split; read_trace; try reflexivity;
    cbn [filter];
    match goal with
    | |- context [dataframe_ref ?k] => fold (ref_turn k)
    end;
    now rewrite is_table_ref_ref_turn ].

(** What one question adds to the table references and to the store. *)
Lemma handle_question_tables ag q w :
  exists tr,
    handle_question ag q w = (inr tt, mkWorld (replay tr (session w)) (trace w ++ tr)) /\
    table_refs (appended_turns tr)
      = (if stores_table ag q
         then [ref_turn (length (dataframes (session w)))] else []) /\
    length (stored_tables tr) = (if stores_table ag q then 1 else 0).
Proof.
  unfold stores_table.
  destruct (sql_data_analyst ag q) as [e|res] eqn:Hsql.
  - rewrite (handle_sql_failed _ _ _ _ Hsql). sum_up_path.
  - destruct (Py.truthy_str (get_sql_query_code res)) eqn:Hq.
    + destruct (truthy_str_some _ Hq) as [sql Hcode]. rewrite Hcode in Hq.
      destruct (data_visualization_agent ag q (get_data_sql res)) as [e|g] eqn:Hviz;
        [|destruct (truthy_graph g) eqn:Hg].
      * rewrite (handle_viz_failed _ _ _ _ _ _ Hsql Hcode Hq Hviz). sum_up_path.
      * rewrite (handle_chart _ _ _ _ _ _ Hsql Hcode Hq Hviz Hg). sum_up_path.
      * rewrite (handle_no_chart _ _ _ _ _ _ Hsql Hcode Hq Hviz Hg). sum_up_path.
    + rewrite (handle_no_query _ _ _ _ Hsql Hq). sum_up_path.
Qed.

Lemma handle_questions_tables qs : forall w,
  exists tr,
    handle_questions qs w = (inr tt, mkWorld (replay tr (session w)) (trace w ++ tr)) /\
    table_refs (appended_turns tr)
      = map ref_turn (seq (length (dataframes (session w))) (tables_stored qs)) /\
    length (stored_tables tr) = tables_stored qs.
Proof.
  induction qs as [|[ag q] qs IH]; intros w.
  - exists []. cbn. rewrite app_nil_r. now destruct w.
  - destruct (handle_question_tables ag q w) as (tr1 & Hrun1 & Hrefs1 & Hlen1).
    destruct (IH (mkWorld (replay tr1 (session w)) (trace w ++ tr1)))
      as (tr2 & Hrun2 & Hrefs2 & Hlen2).
    cbn [session trace] in Hrun2, Hrefs2.
    exists (tr1 ++ tr2). repeat apply conj.
    + cbn [handle_questions]. unfold bind. rewrite Hrun1, Hrun2.
      now rewrite replay_app, app_assoc.
    + rewrite appended_turns_app, table_refs_app, Hrefs1, Hrefs2.
      rewrite replay_dataframes, length_app, Hlen1.
      cbn [tables_stored].
      destruct (stores_table ag q); cbn [Nat.add app].
      * cbn [seq map]. now rewrite Nat.add_1_r.
      * now rewrite Nat.add_0_r.
    + rewrite stored_tables_app, length_app, Hlen1, Hlen2. reflexivity.
Qed.

(** C7.  However a sequence of questions goes, the reference turns appended
    in a session that starts with no table are those for 0, 1, ..., n-1, in
    that order, where n counts the questions whose SQL step returned a
    query; the store then holds exactly the n tables, in the same order. *)
Theorem table_indices_contiguous qs msgs :
  let w := snd (run (handle_questions qs) (mkSession msgs [])) in
  table_refs (appended_turns (trace w)) = map ref_turn (seq 0 (tables_stored qs)) /\
  dataframes (session w) = stored_tables (trace w) /\
  length (dataframes (session w)) = tables_stored qs /\
  NoDup (seq 0 (tables_stored qs)).
Proof.
  destruct (handle_questions_tables qs (mkWorld (mkSession msgs []) []))
    as (tr & Hrun & Hrefs & Hlen).
  unfold run. rewrite Hrun. cbv zeta.
  cbn [snd session trace app dataframes length] in *.
  rewrite replay_dataframes. cbn [dataframes app].
  repeat apply conj; auto using seq_NoDup.
Qed.

(** ** The order of appends within one question *)







(** ** Turns that hold the marker *)





Lemma display_messages_ok l : forall w,
  (forall msg, In msg l -> Py.contains marker (content msg) = true ->
     exists df, resolve (dataframes (session w)) (content msg) = inr df) ->
  fst (display_messages l w) = inr tt.
Proof.
  induction l as [|m l IH]; intros w Hall; [reflexivity|].
  cbn [display_messages]. unfold bind.
  pose proof (display_message_session m w) as Hs.
  destruct (Py.contains marker (content m)) eqn:Hc.
  - destruct (Hall m (or_introl eq_refl) Hc) as [df Hdf].
    rewrite (display_message_marker _ _ Hc), Hdf in Hs |- *.
    apply IH. intros msg Hin Hmsg. apply Hall; [now right | exact Hmsg].
  - rewrite (display_message_text _ _ Hc) in Hs |- *.
    apply IH. intros msg Hin Hmsg. apply Hall; [now right | exact Hmsg].
Qed.

(** A negative index is an index for Python: the turn shows the last
    table. *)
Example negative_index_shows_last_table :
  run display_chat_history
      (mkSession [mkMessage human "DATAFRAME_INDEX:-1"] [count_table; empty_table])
    = (inr tt,
       mkWorld
         (mkSession [mkMessage human "DATAFRAME_INDEX:-1"] [count_table; empty_table])
         [StDataframe (ChatMessage human) empty_table]).
Proof. reflexivity. Qed.

(** ** The script, run after run *)

Lemma display_chat_history_session w :
  session (snd (display_chat_history w)) = session w.
Proof.
  unfold display_chat_history, bind, get_messages.
  apply display_messages_session.
Qed.

Lemma refs_contiguous_step s tr (b : bool) :
  refs_contiguous s ->
  table_refs (appended_turns tr)
    = (if b then [ref_turn (length (dataframes s))] else []) ->
  length (stored_tables tr) = (if b then 1 else 0) ->
  refs_contiguous (replay tr s).
Proof.
  unfold refs_contiguous. intros Hs Hrefs Hlen.
  rewrite replay_messages, replay_dataframes, table_refs_app, length_app.
  rewrite Hs, Hrefs, Hlen. destruct b.
  - now rewrite Nat.add_1_r, seq_S, map_app.
  - now rewrite Nat.add_0_r, app_nil_r.
Qed.

Lemma handle_question_keeps_refs ag q w :
  refs_contiguous (session w) ->
  refs_contiguous (session (snd (handle_question ag q w))).
Proof.
  intros Hs. destruct (handle_question_tables ag q w) as (tr & Hrun & Hrefs & Hlen).
  rewrite Hrun. cbn [snd session].
  exact (refs_contiguous_step _ _ _ Hs Hrefs Hlen).
Qed.

(** One run of the script keeps the references in step with the store,
    whether the rendering raises or not. *)
Lemma script_run_keeps_refs ag q s :
  refs_contiguous s ->
  refs_contiguous (session (snd (run (script_run ag q) s))).
Proof.
  intros Hs. unfold run, script_run, bind, get_messages. cbn [session fst snd].
  set (w1 := snd ((if (length (langchain_messages s) =? 0)%nat
                    then add_ai_message greeting else ret tt) (mkWorld s []))).
  assert (Hw1 : refs_contiguous (session w1)).
  { subst w1. destruct (length (langchain_messages s) =? 0)%nat; [|exact Hs].
    unfold refs_contiguous in *. cbn. now rewrite table_refs_app, Hs, app_nil_r. }
  assert (Heq : (if (length (langchain_messages s) =? 0)%nat
                 then add_ai_message greeting else ret tt) (mkWorld s [])
                = (inr tt, w1)).
  { subst w1. now destruct (length (langchain_messages s) =? 0)%nat. }
  rewrite Heq.
  pose proof (display_chat_history_session w1) as Hd.
  destruct (display_chat_history w1) as [[e|u] w2]; cbn [snd] in *.
  - now rewrite Hd.
  - rewrite <- Hd in Hw1.
    destruct q as [q|]; [|exact Hw1].
    destruct (Py.truthy_str (Some q)); [|exact Hw1].
    now apply handle_question_keeps_refs.
Qed.

(** However a session goes, its table references are those of 0, 1, ...
    up to the size of its store. *)
Lemma session_after_keeps_refs inputs : forall s,
  refs_contiguous s -> refs_contiguous (session_after inputs s).
Proof.
  induction inputs as [|[ag q] inputs IH]; intros s Hs; [exact Hs|].
  cbn [session_after]. apply IH. now apply script_run_keeps_refs.
Qed.

Lemma new_session_refs : refs_contiguous new_session.
Proof. reflexivity. Qed.

(** A question that holds the marker with no number is answered once; the
    next run of the script raises while it renders the history and never
    gets to the new question. *)
Example marker_in_question_breaks_next_run :
  let ag := agents_of (inr (mkSqlResult (Some count_query) count_table)) (inr bar_chart) in
  let s1 := session (snd (run (script_run ag (Some "DATAFRAME_INDEX:abc"%string)) new_session)) in
  let r := run (script_run ag (Some count_question)) s1 in
  fst r = inl (Py.ValueError "invalid literal for int() with base 10: 'abc'") /\
  session (snd r) = s1 /\
  trace (snd r) = [StWrite (ChatMessage ai) greeting].
Proof. repeat split. Qed.

(** * Further properties of the script *)

(** ** One question, whatever the agents do *)

(** The five ways through the handler, started on an empty page in [s]. *)
Ltac by_paths ag q s :=
  let e := fresh "e" in
  let res := fresh "res" in
  let sql := fresh "sql" in
  let g := fresh "g" in
  let Hsql := fresh "Hsql" in
  let Hq := fresh "Hq" in
  let Hcode := fresh "Hcode" in
  let Hviz := fresh "Hviz" in
  let Hg := fresh "Hg" in
  destruct (sql_data_analyst ag q) as [e|res] eqn:Hsql;
  [ pose proof (handle_sql_failed ag q e (mkWorld s []) Hsql)
  | destruct (Py.truthy_str (get_sql_query_code res)) eqn:Hq;
    [ destruct (truthy_str_some _ Hq) as [sql Hcode]; rewrite Hcode in Hq;
      destruct (data_visualization_agent ag q (get_data_sql res)) as [e|g] eqn:Hviz;
      [ pose proof (handle_viz_failed ag q res sql e (mkWorld s []) Hsql Hcode Hq Hviz)
      | destruct (truthy_graph g) eqn:Hg;
        [ pose proof (handle_chart ag q res sql g (mkWorld s []) Hsql Hcode Hq Hviz Hg)
        | pose proof (handle_no_chart ag q res sql g (mkWorld s []) Hsql Hcode Hq Hviz Hg) ] ]
    | pose proof (handle_no_query ag q res (mkWorld s []) Hsql Hq) ] ].

Lemma sql_invocations_app tr1 tr2 :
  sql_invocations (tr1 ++ tr2) = sql_invocations tr1 + sql_invocations tr2.
Proof.
  induction tr1 as [|e tr1 IH]; [reflexivity|].
  destruct e; cbn; rewrite IH; reflexivity.
Qed.


(** X2.  There are no retries: handling a question calls the SQL agent
    exactly once and the visualisation agent at most once. *)
Theorem agents_called_once ag q s :
  sql_invocations (question_trace ag q s) = 1 /\
  viz_invocations (question_trace ag q s) <= 1.
Proof.
  by_paths ag q s; split; read_trace;
    cbn [sql_invocations viz_invocations]; lia.
Qed.

(** X3.  The question is recorded first.  Handling a question appends the
    user turn before the SQL agent is called; everything appended after it
    is an assistant turn, nothing recorded earlier is touched, and at most
    one table joins the store. *)
Theorem question_recorded_first ag q s :
  exists turns tables before after,
    question_session ag q s
      = mkSession (langchain_messages s ++ mkMessage human q :: turns)
                  (dataframes s ++ tables) /\
    forallb is_ai turns = true /\
    length tables <= 1 /\
    question_trace ag q s = before ++ InvokeSql q :: after /\
    appended_turns before = [mkMessage human q] /\
    stored_tables before = [].
Proof.
  by_paths ag q s.
  all: eexists _, _,
         ([StWrite (ChatMessage human) q; AddMessage (mkMessage human q)]
            ++ log_question q ++ [Print PATH_DB]), _.
  all: repeat apply conj;
    [ unfold question_session, run;
      match goal with H : handle_question _ _ _ = _ |- _ => rewrite H end;
      cbn [snd session langchain_messages dataframes]; f_equal;
      first [reflexivity | symmetry; apply app_nil_r]
    | reflexivity
    | cbn [length]; lia
    | unfold question_trace, run;
      match goal with H : handle_question _ _ _ = _ |- _ => rewrite H end;
      unfold question_prologue; cbn [snd trace app];
      rewrite <- ?app_assoc; cbn [app]; reflexivity
    | unfold log_question; destruct (Py.truthy_str (Some q)); reflexivity
    | unfold log_question; destruct (Py.truthy_str (Some q)); reflexivity ].
Qed.

Ltac find_in_trace := cbn [In]; solve [repeat first [left; reflexivity | right]].

Ltac settle_turn :=
  split; intros Href;
  [ try find_in_trace;
    exfalso; revert Href;
    match goal with
    | |- context [dataframe_ref ?k] => fold (ref_turn k)
    end;
    rewrite is_table_ref_ref_turn; discriminate
  | try (eexists; split; [find_in_trace | reflexivity]);
    exfalso; revert Href;
    rewrite ?is_table_ref_human, ?is_table_ref_sql_text, ?is_table_ref_apology,
      ?is_table_ref_confirmation;
    discriminate ].

(** X4.  What a question adds to the transcript is on the page in the same
    run: a turn of text is written in a bubble of its role, and for the
    reference turn the table just stored is shown. *)
Theorem page_shows_what_is_recorded ag q s m :
  In m (appended_turns (question_trace ag q s)) ->
  (is_table_ref m = false ->
   In (StWrite (ChatMessage (type m)) (content m)) (question_trace ag q s)) /\
  (is_table_ref m = true ->
   exists df, In (StDataframe Main df) (question_trace ag q s) /\
              stored_tables (question_trace ag q s) = [df]).
Proof.
  by_paths ag q s; read_trace; cbn [In]; intros Hin;
    repeat (destruct Hin as [<-|Hin]; [settle_turn|]); contradiction.
Qed.

Lemma page_shows_what_is_recorded_witness :
  In (StWrite (ChatMessage ai) viz_response)
     (question_trace
        (agents_of (inr (mkSqlResult (Some count_query) count_table)) (inr bar_chart))
        count_question new_session).
Proof.
  refine (proj1 (page_shows_what_is_recorded
                   (agents_of (inr (mkSqlResult (Some count_query) count_table))
                              (inr bar_chart))
                   count_question new_session (mkMessage ai viz_response) _)
                eq_refl).
  vm_compute. tauto.
Defined.

(** ** Rendering the history *)

Lemma bubbles_have_no_chart tr :
  forallb is_bubble tr = true ->
  charts_shown tr = [] /\ appended_turns tr = [] /\ stored_tables tr = [] /\
  warnings tr = [] /\ viz_invocations tr = 0 /\ sql_invocations tr = 0.
Proof.
  induction tr as [|e tr IH]; [now repeat split|].
  cbn [forallb]. intros H. apply andb_true_iff in H as [He Htr].
  destruct e as [ | |[|r] t|[|r] d| | | | | | ]; try discriminate He;
    cbn; now apply IH.
Qed.

Lemma display_message_bubble msg w :
  exists tr,
    trace (snd (display_message msg w)) = trace w ++ tr /\
    forallb is_bubble tr = true /\
    length tr <= 1 /\
    (fst (display_message msg w) = inr tt -> length tr = 1).
Proof.
  destruct (Py.contains marker (content msg)) eqn:Hc.
  - rewrite (display_message_marker _ _ Hc).
    destruct (resolve _ _) as [e|df].
    + exists []. cbn. rewrite app_nil_r. repeat split; [lia | discriminate].
    + eexists [_]. cbn. repeat split. lia.
  - rewrite (display_message_text _ _ Hc). eexists [_]. cbn. repeat split. lia.
Qed.

Lemma display_messages_bubbles l : forall w,
  exists tr,
    trace (snd (display_messages l w)) = trace w ++ tr /\
    forallb is_bubble tr = true /\
    length tr <= length l /\
    (fst (display_messages l w) = inr tt -> length tr = length l).
Proof.
  induction l as [|msg l IH]; intros w.
  - exists []. cbn. rewrite app_nil_r. repeat split. lia.
  - cbn [display_messages]. unfold bind.
    destruct (display_message_bubble msg w) as (tr1 & Ht1 & Hb1 & Hl1 & Hok1).
    destruct (display_message msg w) as [[e|u] w1]; cbn [fst snd] in *.
    + exists tr1. cbn [length]. repeat split; try assumption; [lia | discriminate].
    + destruct (IH w1) as (tr2 & Ht2 & Hb2 & Hl2 & Hok2).
      exists (tr1 ++ tr2). rewrite Ht2, Ht1, app_assoc, forallb_app, Hb1, Hb2.
      rewrite length_app. cbn [length]. specialize (Hok1 ltac:(now destruct u)).
      repeat split; [lia|]. intros Hr. specialize (Hok2 Hr). lia.
Qed.


(** X5.  Rendering the history only reads: it leaves the session state as
    it is, calls no agent, and puts nothing on the page but chat bubbles,
    at most one per turn.  In particular a chart made in an earlier run is
    not shown again. *)
Theorem rendering_only_reads s :
  let w := snd (run display_chat_history s) in
  session w = s /\
  forallb is_bubble (trace w) = true /\
  length (trace w) <= length (langchain_messages s) /\
  charts_shown (trace w) = [] /\
  sql_invocations (trace w) = 0 /\
  viz_invocations (trace w) = 0.
Proof.
  cbv zeta. unfold run.
  pose proof (display_chat_history_session (mkWorld s [])) as Hs.
  unfold display_chat_history, bind, get_messages in *. cbn [session fst snd] in *.
  destruct (display_messages_bubbles (langchain_messages s) (mkWorld s []))
    as (tr & Ht & Hb & Hl & _).
  cbn [trace app] in Ht. rewrite Ht.
  destruct (bubbles_have_no_chart _ Hb) as (Hc & _ & _ & _ & Hv & Hq).
  repeat split; assumption.
Qed.

Lemma display_messages_raises l : forall w e,
  fst (display_messages l w) = inl e ->
  exists msg,
    In msg l /\ Py.contains marker (content msg) = true /\
    resolve (dataframes (session w)) (content msg) = inl e.
Proof.
  induction l as [|m l IH]; intros w e H; [discriminate|].
  cbn [display_messages] in H. unfold bind in H.
  pose proof (display_message_session m w) as Hs.
  destruct (Py.contains marker (content m)) eqn:Hc.
  - rewrite (display_message_marker _ _ Hc) in H, Hs.
    destruct (resolve (dataframes (session w)) (content m)) as [e1|df] eqn:Hres.
    + cbn in H. injection H as <-. exists m. repeat split; [now left|assumption..].
    + destruct (IH _ _ H) as (msg & Hin & Hm & Hr).
      exists msg. repeat split; [now right | assumption | exact Hr].
  - rewrite (display_message_text _ _ Hc) in H, Hs.
    destruct (IH _ _ H) as (msg & Hin & Hm & Hr).
    exists msg. repeat split; [now right | assumption | exact Hr].
Qed.


Lemma script_run_raises ag q s e :
  fst (run (script_run ag q) s) = inl e ->
  exists msg,
    In msg (langchain_messages s) /\
    Py.contains marker (content msg) = true /\
    resolve (dataframes s) (content msg) = inl e.
Proof.
  unfold run, script_run, display_chat_history, bind, get_messages.
  cbn [session fst snd].
  destruct (langchain_messages s) as [|m0 l] eqn:Hl; cbn [length Nat.eqb].
  - unfold add_ai_message, add_message. cbn [session langchain_messages app].
    rewrite Hl. cbn [app display_messages]. unfold bind.
    rewrite display_message_text by reflexivity.
    cbn [display_messages]. unfold ret at 1. cbn.
    destruct q as [q|]; [|discriminate].
    destruct (Py.truthy_str (Some q)); [|discriminate].
    rewrite handle_question_returns. discriminate.
  - unfold ret at 1. cbn [session langchain_messages]. rewrite Hl.
    destruct (display_messages (m0 :: l) (mkWorld s [])) as [[e1|u] w1] eqn:Hd.
    + intros H. cbn in H. injection H as <-.
      apply (display_messages_raises (m0 :: l) (mkWorld s []) e1).
      now rewrite Hd.
    + destruct q as [q|]; [|discriminate].
      destruct (Py.truthy_str (Some q)); [|discriminate].
      rewrite handle_question_returns. discriminate.
Qed.






(** X9.  A reference reads back.  The turn line 232 writes for the index
    [k] is rendered as the table at position [k] of the store, whatever
    [k] is: the number survives [f"{k}"], [split] and [int]. *)
Theorem reference_reads_back s k df :
  nth_error (dataframes s) k = Some df ->
  Py.int (segment (dataframe_ref k)) = inr (Z.of_nat k) /\
  run (display_message (ref_turn k)) s
    = (inr tt, mkWorld s [StDataframe (ChatMessage ai) df]).
Proof.
  intros Hnth. split.
  - now rewrite segment_dataframe_ref, int_str_of_nat.
  - unfold run. rewrite display_message_marker by apply contains_dataframe_ref.
    cbn [session content ref_turn].
    now rewrite (resolve_dataframe_ref _ _ _ Hnth).
Qed.

Lemma reference_reads_back_witness :
  run (display_message (ref_turn 1)) (mkSession [] [count_table; empty_table])
    = (inr tt,
       mkWorld (mkSession [] [count_table; empty_table])
               [StDataframe (ChatMessage ai) empty_table]).
Proof.
  exact (proj2 (reference_reads_back
                  (mkSession [] [count_table; empty_table]) 1 empty_table eq_refl)).
Defined.

(** ** Sessions free of the marker *)

Lemma prefix_empty s : String.prefix EmptyString s = true.
Proof. now destruct s. Qed.

Lemma prefix_app_sep c b m : forall a,
  occurs c m = false ->
  String.prefix m (a +++ String c b) = String.prefix m a.
Proof.
  induction m as [|x m IH]; intros a Hc.
  - now rewrite !prefix_empty.
  - cbn [occurs] in Hc. apply orb_false_iff in Hc as [Hx Hm].
    destruct a as [|y a]; cbn [String.append String.prefix].
    + destruct (ascii_dec x c) as [->|_]; [|reflexivity].
      now rewrite Ascii.eqb_refl in Hx.
    + destruct (ascii_dec x y); [now apply IH | reflexivity].
Qed.

(** A character that is not in [m] cuts the search for [m] in two. *)
Lemma contains_app_sep c b x m a :
  occurs c (String x m) = false ->
  Py.contains (String x m) (a +++ String c b)
    = Py.contains (String x m) a || Py.contains (String x m) b.
Proof.
  intros Hc. unfold Py.contains. induction a as [|y a IH].
  - cbn [String.append]. rewrite (find_unfold _ (String c b)).
    rewrite (find_unfold _ EmptyString).
    cbn [String.prefix]. cbn [occurs] in Hc.
    apply orb_false_iff in Hc as [Hx _].
    destruct (ascii_dec x c) as [->|_]; [now rewrite Ascii.eqb_refl in Hx|].
    now destruct (Py.find (String x m) b).
  - cbn [String.append].
    rewrite (find_unfold _ (String y (a +++ String c b))).
    rewrite (find_unfold _ (String y a)).
    change (String y (a +++ String c b)) with (String y a +++ String c b).
    rewrite (prefix_app_sep c b _ (String y a) Hc).
    destruct (String.prefix (String x m) (String y a)); [reflexivity|].
    destruct (Py.find (String x m) (a +++ String c b)),
             (Py.find (String x m) a); cbn in *; congruence.
Qed.

Lemma contains_response_1 sql :
  Py.contains marker (response_1 sql) = Py.contains marker sql.
Proof.
  change (response_1 sql)
    with (("### SQL Results:" +++ Py.nl +++ Py.nl +++ "SQL Query:" +++ Py.nl
             +++ Py.nl +++ "```sql")
            +++ String (ascii_of_nat 10)
                  (sql +++ String (ascii_of_nat 10)
                             ("```" +++ Py.nl +++ Py.nl +++ "Result:"))).
  unfold marker. rewrite !contains_app_sep by reflexivity.
  change (Py.contains _ ("### SQL Results:" +++ _)) with false.
  change (Py.contains _ ("```" +++ _)) with false.
  now rewrite orb_false_r.
Qed.

Lemma contains_response_text e :
  Py.contains marker (response_text e) = Py.contains marker (Py.str e).
Proof.
  change (response_text e)
    with ((Py.nl +++ indent +++
           "I'm sorry. I am having difficulty answering that question. You can try providing more details and I'll do my best to provide an answer."
           +++ Py.nl +++ indent +++ Py.nl +++ indent +++ "Error:")
            +++ String " "
                  (Py.str e +++ String (ascii_of_nat 10) indent)).
  unfold marker. rewrite !contains_app_sep by reflexivity.
  change (Py.contains _ (Py.nl +++ _)) with false.
  change (Py.contains _ indent) with false.
  now rewrite orb_false_r.
Qed.

Lemma healthy_renders s : healthy s ->
  forall msg, In msg (langchain_messages s) -> renders (dataframes s) msg.
Proof.
  intros Hs msg Hin Hc. destruct (Hs msg Hin Hc) as (k & -> & Hk).
  destruct (nth_error (dataframes s) k) as [df|] eqn:Hnth.
  - exists df. now apply resolve_dataframe_ref.
  - apply nth_error_None in Hnth. lia.
Qed.

Lemma healthy_grows s turns tables :
  healthy s ->
  (forall msg, In msg turns -> Py.contains marker (content msg) = true ->
     exists k, msg = ref_turn k /\ k < length (dataframes s ++ tables)) ->
  healthy (mkSession (langchain_messages s ++ turns) (dataframes s ++ tables)).
Proof.
  intros Hs Hnew msg Hin Hc. cbn [langchain_messages dataframes] in *.
  apply in_app_or in Hin as [Hin|Hin].
  - destruct (Hs msg Hin Hc) as (k & Hk & Hlt). exists k. split; [exact Hk|].
    rewrite length_app. lia.
  - now apply Hnew.
Qed.

Ltac settle_marker :=
  match goal with
  | Hc : Py.contains marker (content _) = true |- _ =>
      cbn [content] in Hc;
      rewrite ?contains_response_1, ?contains_response_text in Hc;
      first
        [ congruence
        | discriminate Hc
        | eexists; split; [reflexivity|]; rewrite length_app; cbn [length]; lia ]
  end.

Lemma handle_question_keeps_healthy ag q w :
  marker_free ag q ->
  healthy (session w) ->
  healthy (session (snd (handle_question ag q w))).
Proof.
  intros [Hq Hfree] Hs.
  destruct (sql_data_analyst ag q) as [e|res] eqn:Hsql.
  - rewrite (handle_sql_failed _ _ _ _ Hsql). cbn [snd session].
    rewrite <- (app_nil_r (dataframes (session w))).
    apply healthy_grows; [exact Hs|].
    intros msg Hin Hc. cbn [In] in Hin.
    repeat (destruct Hin as [<-|Hin]; [settle_marker|]). contradiction.
  - destruct (Py.truthy_str (get_sql_query_code res)) eqn:Htruthy.
    + destruct (truthy_str_some _ Htruthy) as [sql Hcode]. rewrite Hcode in *.
      destruct (data_visualization_agent ag q (get_data_sql res)) as [e|g] eqn:Hviz;
        [|destruct (truthy_graph g) eqn:Hg].
      * rewrite (handle_viz_failed _ _ _ _ _ _ Hsql Hcode Htruthy Hviz).
        cbn [snd session]. apply healthy_grows; [exact Hs|].
        intros msg Hin Hc. cbn [In] in Hin.
        repeat (destruct Hin as [<-|Hin]; [settle_marker|]). contradiction.
      * rewrite (handle_chart _ _ _ _ _ _ Hsql Hcode Htruthy Hviz Hg).
        cbn [snd session]. apply healthy_grows; [exact Hs|].
        intros msg Hin Hc. cbn [In] in Hin.
        repeat (destruct Hin as [<-|Hin]; [settle_marker|]). contradiction.
      * rewrite (handle_no_chart _ _ _ _ _ _ Hsql Hcode Htruthy Hviz Hg).
        cbn [snd session]. apply healthy_grows; [exact Hs|].
        intros msg Hin Hc. cbn [In] in Hin.
        repeat (destruct Hin as [<-|Hin]; [settle_marker|]). contradiction.
    + rewrite (handle_no_query _ _ _ _ Hsql Htruthy). cbn [snd session].
      rewrite <- (app_nil_r (dataframes (session w))).
      apply healthy_grows; [exact Hs|].
      intros msg Hin Hc. cbn [In] in Hin.
      repeat (destruct Hin as [<-|Hin]; [settle_marker|]). contradiction.
Qed.

Lemma healthy_script_returns ag q s :
  healthy s -> fst (run (script_run ag q) s) = inr tt.
Proof.
  intros Hs. destruct (fst (run (script_run ag q) s)) as [e|[]] eqn:Hr; [|reflexivity].
  destruct (script_run_raises _ _ _ _ Hr) as (msg & Hin & Hc & Hres).
  destruct (healthy_renders _ Hs msg Hin Hc) as [df Hdf]. congruence.
Qed.

Lemma script_run_keeps_healthy ag q s :
  marker_free_input (ag, q) ->
  healthy s ->
  healthy (session (snd (run (script_run ag q) s))).
Proof.
  intros Hfree Hs. unfold run, script_run, bind, get_messages. cbn [session fst snd].
  set (w1 := snd ((if (length (langchain_messages s) =? 0)%nat
                    then add_ai_message greeting else ret tt) (mkWorld s []))).
  assert (Hw1 : healthy (session w1)).
  { subst w1. destruct (length (langchain_messages s) =? 0)%nat; [|exact Hs].
    cbn. rewrite <- (app_nil_r (dataframes s)).
    apply healthy_grows; [exact Hs|].
    intros msg [<-|[]] Hc. discriminate Hc. }
  assert (Heq : (if (length (langchain_messages s) =? 0)%nat
                 then add_ai_message greeting else ret tt) (mkWorld s [])
                = (inr tt, w1)).
  { subst w1. now destruct (length (langchain_messages s) =? 0)%nat. }
  rewrite Heq.
  pose proof (display_chat_history_session w1) as Hd.
  destruct (display_chat_history w1) as [[e|u] w2]; cbn [snd] in *.
  - now rewrite Hd.
  - rewrite <- Hd in Hw1.
    destruct q as [q|]; [|exact Hw1].
    destruct (Py.truthy_str (Some q)); [|exact Hw1].
    now apply handle_question_keeps_healthy.
Qed.

Lemma session_after_keeps_healthy inputs : forall s,
  Forall marker_free_input inputs ->
  healthy s -> healthy (session_after inputs s).
Proof.
  induction inputs as [|[ag q] inputs IH]; intros s Hall Hs; [exact Hs|].
  inversion Hall as [|i l Hi Hl]; subst.
  cbn [session_after]. apply IH; [exact Hl|].
  now apply script_run_keeps_healthy.
Qed.

(** X10.  A session in which no question, no SQL text and no error message
    holds the marker never breaks: after any number of runs the marker
    occurs only in references to tables of the store, every one of them
    shows its table, and the next run, whatever it asks, does not raise. *)
Theorem marker_free_session_never_raises inputs ag q :
  Forall marker_free_input inputs ->
  healthy (session_after inputs new_session) /\
  fst (run display_chat_history (session_after inputs new_session)) = inr tt /\
  fst (run (script_run ag q) (session_after inputs new_session)) = inr tt.
Proof.
  intros Hall.
  assert (Hs : healthy (session_after inputs new_session)).
  { apply session_after_keeps_healthy; [exact Hall|]. intros msg []. }
  repeat split; [exact Hs | | now apply healthy_script_returns].
  unfold run, display_chat_history, bind, get_messages. cbn [session fst snd].
  apply display_messages_ok. exact (healthy_renders _ Hs).
Qed.

Lemma marker_free_session_never_raises_witness :
  fst (run (script_run
              (agents_of (inr (mkSqlResult (Some count_query) count_table))
                         (inr bar_chart))
              (Some count_question))
           (session_after
              [(agents_of (inr (mkSqlResult (Some count_query) count_table))
                          (inr bar_chart), Some count_question);
               (agents_of (inl (Py.Exception "no such table: X")) (inr bar_chart),
                Some count_question)]
              new_session)) = inr tt.
Proof.
  refine (proj2 (proj2 (marker_free_session_never_raises
    [(agents_of (inr (mkSqlResult (Some count_query) count_table))
                (inr bar_chart), Some count_question);
     (agents_of (inl (Py.Exception "no such table: X")) (inr bar_chart),
      Some count_question)]
    (agents_of (inr (mkSqlResult (Some count_query) count_table)) (inr bar_chart))
    (Some count_question) _))).
  repeat constructor.
Defined.

(** ** A session, run after run *)

Lemma script_run_appends ag q s :
  exists turns tables,
    session (snd (run (script_run ag q) s))
      = mkSession (langchain_messages s ++ turns) (dataframes s ++ tables).
Proof.
  destruct (traced_script_run ag q (mkWorld s [])) as (tr & _ & Hs).
  exists (appended_turns tr), (stored_tables tr).
  unfold run. now rewrite Hs, replay_eq.
Qed.

(** X11.  The history and the store only grow.  Whatever happens in a
    session, the turns and the tables it held before are still there, in
    the same places: nothing is removed, replaced or reordered. *)
Theorem history_only_grows inputs : forall s,
  exists turns tables,
    session_after inputs s
      = mkSession (langchain_messages s ++ turns) (dataframes s ++ tables).
Proof.
  induction inputs as [|[ag q] inputs IH]; intros s.
  - exists [], []. rewrite !app_nil_r. apply session_eta.
  - cbn [session_after].
    destruct (script_run_appends ag q s) as (t1 & d1 & H1).
    destruct (IH (session (snd (run (script_run ag q) s)))) as (t2 & d2 & H2).
    exists (t1 ++ t2), (d1 ++ d2).
    rewrite H2, H1. cbn [langchain_messages dataframes].
    now rewrite <- !app_assoc.
Qed.

Lemma dataframe_ref_inj a b : dataframe_ref a = dataframe_ref b -> a = b.
Proof.
  unfold dataframe_ref, marker. cbn [String.append]. intros H.
  injection H as H. now apply str_of_nat_inj.
Qed.

Lemma ref_turn_inj a b : ref_turn a = ref_turn b -> a = b.
Proof.
  unfold ref_turn. intros H. apply dataframe_ref_inj.
  exact (f_equal content H).
Qed.

Lemma NoDup_map_injective {A B} (f : A -> B) l :
  (forall a b, f a = f b -> a = b) -> NoDup l -> NoDup (map f l).
Proof.
  intros Hinj Hl. induction Hl as [|x l Hx Hl IH]; cbn; constructor; [|exact IH].
  intros Hin. apply in_map_iff in Hin as (y & Hy & Hiny).
  apply Hinj in Hy. now subst.
Qed.

(** X12.  Over whole runs of the script - also those that raise while
    rendering, those without a question and the one that adds the
    greeting - the table references of the history are those of 0, 1, ...
    up to the size of the store, in order, and no two of them are equal. *)
Theorem references_in_step_with_store inputs :
  let s := session_after inputs new_session in
  table_refs (langchain_messages s) = map ref_turn (seq 0 (length (dataframes s))) /\
  NoDup (table_refs (langchain_messages s)).
Proof.
  cbv zeta.
  pose proof (session_after_keeps_refs inputs new_session new_session_refs) as H.
  unfold refs_contiguous in H. split; [exact H|]. rewrite H.
  apply NoDup_map_injective; [apply ref_turn_inj | apply seq_NoDup].
Qed.




Lemma handle_question_no_greeting ag q w :
  exists turns,
    langchain_messages (session (snd (handle_question ag q w)))
      = langchain_messages (session w) ++ turns /\
    ~ In (mkMessage ai greeting) turns.
Proof.
  destruct (sql_data_analyst ag q) as [e|res] eqn:Hsql.
  - rewrite (handle_sql_failed _ _ _ _ Hsql). eexists. split; [reflexivity|].
    cbn [In]. intros [H|[H|[]]]; discriminate H.
  - destruct (Py.truthy_str (get_sql_query_code res)) eqn:Hq.
    + destruct (truthy_str_some _ Hq) as [sql Hcode]. rewrite Hcode in Hq.
      destruct (data_visualization_agent ag q (get_data_sql res)) as [e|g] eqn:Hviz;
        [|destruct (truthy_graph g) eqn:Hg].
      * rewrite (handle_viz_failed _ _ _ _ _ _ Hsql Hcode Hq Hviz).
        eexists. split; [reflexivity|].
        cbn [In]. intros [H|[H|[H|[]]]]; discriminate H.
      * rewrite (handle_chart _ _ _ _ _ _ Hsql Hcode Hq Hviz Hg).
        eexists. split; [reflexivity|].
        cbn [In]. intros [H|[H|[H|[H|[]]]]]; discriminate H.
      * rewrite (handle_no_chart _ _ _ _ _ _ Hsql Hcode Hq Hviz Hg).
        eexists. split; [reflexivity|].
        cbn [In]. intros [H|[H|[H|[]]]]; discriminate H.
    + rewrite (handle_no_query _ _ _ _ Hsql Hq). eexists. split; [reflexivity|].
      cbn [In]. intros [H|[]]; discriminate H.
Qed.

Lemma script_run_greeting ag q s :
  exists turns,
    langchain_messages (session (snd (run (script_run ag q) s)))
      = match langchain_messages s with
        | [] => [mkMessage ai greeting]
        | l => l
        end ++ turns /\
    ~ In (mkMessage ai greeting) turns.
Proof.
  unfold run, script_run, bind, get_messages. cbn [session fst snd].
  set (w1 := snd ((if (length (langchain_messages s) =? 0)%nat
                    then add_ai_message greeting else ret tt) (mkWorld s []))).
  assert (Hw1 : langchain_messages (session w1)
                = match langchain_messages s with
                  | [] => [mkMessage ai greeting]
                  | l => l
                  end).
  { subst w1. destruct (langchain_messages s) eqn:Hl; cbn; now rewrite Hl. }
  assert (Heq : (if (length (langchain_messages s) =? 0)%nat
                 then add_ai_message greeting else ret tt) (mkWorld s [])
                = (inr tt, w1)).
  { subst w1. now destruct (length (langchain_messages s) =? 0)%nat. }
  rewrite Heq, <- Hw1.
  pose proof (display_chat_history_session w1) as Hd.
  destruct (display_chat_history w1) as [[e|u] w2]; cbn [snd] in *.
  - exists []. rewrite Hd, app_nil_r. now split.
  - rewrite <- Hd.
    destruct q as [q|]; [|exists []; rewrite app_nil_r; now split].
    destruct (Py.truthy_str (Some q)); [|exists []; rewrite app_nil_r; now split].
    apply handle_question_no_greeting.
Qed.

(** X14.  The greeting opens every session and is said once: as soon as
    the script has run in a new session, the history starts with the
    greeting, and no later run appends it again. *)
Theorem greeting_first_and_once i inputs :
  exists rest,
    langchain_messages (session_after (i :: inputs) new_session)
      = mkMessage ai greeting :: rest /\
    ~ In (mkMessage ai greeting) rest.
Proof.
  assert (Hinv : forall inputs s rest,
            langchain_messages s = mkMessage ai greeting :: rest ->
            ~ In (mkMessage ai greeting) rest ->
            exists rest',
              langchain_messages (session_after inputs s)
                = mkMessage ai greeting :: rest' /\
              ~ In (mkMessage ai greeting) rest').
  { clear. induction inputs as [|[ag q] inputs IH]; intros s rest Hs Hrest.
    - now exists rest.
    - cbn [session_after].
      destruct (script_run_greeting ag q s) as (turns & Hrun & Hturns).
      rewrite Hs in Hrun.
      apply (IH _ (rest ++ turns)); [exact Hrun|].
      intros Hin. apply in_app_or in Hin as [Hin|Hin]; tauto. }
  destruct i as [ag q]. cbn [session_after].
  destruct (script_run_greeting ag q new_session) as (turns & Hrun & Hturns).
  cbn [new_session langchain_messages] in Hrun.
  exact (Hinv inputs _ turns Hrun Hturns).
Qed.

(** ** The start of the script *)

Lemma core_events_app t1 t2 :
  core_events (t1 ++ t2) = core_events t1 ++ core_events t2.
Proof.
  induction t1 as [|e t1 IH]; [reflexivity|].
  destruct e; cbn; rewrite ?IH; reflexivity.
Qed.

Lemma core_events_map tr : core_events (map Core tr) = tr.
Proof. induction tr as [|e tr IH]; cbn; [|rewrite IH]; reflexivity. Qed.

(** X15.  When the database cannot be opened - the engine cannot be made,
    or it cannot connect - the run shows the error and stops there: the
    key field is not read, the models are not listed, the history is not
    rendered, no agent is called and the chat is left as it was. *)
Theorem database_failure_stops env ag q a e :
  create_engine env PATH_DB = inl e \/
  (create_engine env PATH_DB = inr tt /\ engine_connect env = inl e) ->
  exists t,
    app_run env ag q a
      = (Stopped, mkApp (Some PATH_DB) (OPENAI_API_KEY a) (chat a),
         t ++ [Core (Log ERROR ("Database connection failed: " +++ Py.str e));
               Core (StError ("Database connection error: " +++ Py.str e));
               StStop]) /\
    ~ In (ModelsList (api_key_input env)) t /\
    filter is_bubble (core_events t) = [] /\
    sql_invocations (core_events t) = 0.
Proof.
  intros [Hce|[Hce Hco]]; unfold app_run, open_database; rewrite Hce; [|rewrite Hco].
  - eexists. split; [rewrite app_assoc; reflexivity|].
    repeat split. cbn. intros [H|[H|[]]]; discriminate H.
  - eexists. split; [rewrite app_assoc; reflexivity|].
    repeat split. cbn. intros [H|[H|[H|[H|[]]]]]; discriminate H.
Qed.

Lemma database_failure_stops_witness :
  exists t,
    app_run (mkEnv (fun _ => inl (Py.Exception "unable to open database file"))
                   (inr tt) "sk-test" (fun _ => inr tt))
            (agents_of (inr (mkSqlResult (Some count_query) count_table)) (inr bar_chart))
            (Some count_question) new_app
      = (Stopped, mkApp (Some PATH_DB) None new_session,
         t ++ [Core (Log ERROR "Database connection failed: unable to open database file");
               Core (StError "Database connection error: unable to open database file");
               StStop]) /\
    ~ In (ModelsList "sk-test") t /\
    filter is_bubble (core_events t) = [] /\
    sql_invocations (core_events t) = 0.
Proof.
  exact (database_failure_stops
           (mkEnv (fun _ => inl (Py.Exception "unable to open database file"))
                  (inr tt) "sk-test" (fun _ => inr tt))
           (agents_of (inr (mkSqlResult (Some count_query) count_table)) (inr bar_chart))
           (Some count_question) new_app
           (Py.Exception "unable to open database file")
           (or_introl eq_refl)).
Defined.

(** X16.  With the database open and no key typed, the run asks for the
    key and stops: the empty key is written to the session state, and
    neither the greeting nor the history nor the question is dealt with. *)
Theorem missing_key_stops env ag q a :
  fst (open_database env) = inr tt ->
  api_key_input env = EmptyString ->
  exists t,
    app_run env ag q a
      = (Stopped, mkApp (Some PATH_DB) (Some EmptyString) (chat a),
         t ++ [StInfo key_missing_text; StStop]) /\
    ~ In (ModelsList EmptyString) t /\
    filter is_bubble (core_events t) = [] /\
    appended_turns (core_events t) = [] /\
    sql_invocations (core_events t) = 0.
Proof.
  intros Hdb Hkey. unfold app_run. rewrite Hkey.
  destruct (open_database env) as [[e|[]] t1] eqn:Hopen; [discriminate|].
  cbn [Py.truthy_str].
  exists ([Core (Log DEBUG ("Attempting to connect to database at: " +++ db_path))] ++ t1).
  split; [now rewrite <- app_assoc|].
  unfold open_database in Hopen.
  destruct (create_engine env PATH_DB) as [e|[]]; [discriminate|].
  destruct (engine_connect env) as [e|[]]; [discriminate|].
  injection Hopen as <-.
  repeat split. cbn. intros [H|[H|[H|[H|[H|[]]]]]]; discriminate H.
Qed.

Lemma missing_key_stops_witness :
  exists t,
    app_run (mkEnv (fun _ => inr tt) (inr tt) EmptyString (fun _ => inr tt))
            (agents_of (inr (mkSqlResult (Some count_query) count_table)) (inr bar_chart))
            (Some count_question) new_app
      = (Stopped, mkApp (Some PATH_DB) (Some EmptyString) new_session,
         t ++ [StInfo key_missing_text; StStop]) /\
    ~ In (ModelsList EmptyString) t /\
    filter is_bubble (core_events t) = [] /\
    appended_turns (core_events t) = [] /\
    sql_invocations (core_events t) = 0.
Proof.
  exact (missing_key_stops
           (mkEnv (fun _ => inr tt) (inr tt) EmptyString (fun _ => inr tt))
           (agents_of (inr (mkSqlResult (Some count_query) count_table)) (inr bar_chart))
           (Some count_question) new_app eq_refl eq_refl).
Defined.

(** X17.  The check of the key gates nothing.  Two runs that differ only in
    what listing the models gives - success, or any exception - end the
    same way and leave the same session state: a key the provider rejects
    gets its error box and the question is handled all the same. *)
Theorem key_check_gates_nothing env env' ag q a :
  create_engine env PATH_DB = create_engine env' PATH_DB ->
  engine_connect env = engine_connect env' ->
  api_key_input env = api_key_input env' ->
  fst (app_run env ag q a) = fst (app_run env' ag q a) /\
  sql_invocations (core_events (snd (app_run env ag q a)))
    = sql_invocations (core_events (snd (app_run env' ag q a))).
Proof.
  intros Hce Hco Hkey. unfold app_run, open_database, test_api_key.
  rewrite <- Hce, <- Hco, <- Hkey.
  destruct (create_engine env PATH_DB) as [e|[]]; [now split|].
  destruct (engine_connect env) as [e|[]]; [now split|].
  destruct (Py.truthy_str (Some (api_key_input env))); [|now split].
  destruct (open_chat _) as [[e|u] w1].
  - destruct (models_list env _), (models_list env' _); split; try reflexivity;
      cbn [fst snd]; rewrite !core_events_app; reflexivity.
  - destruct (ask ag _ q w1) as [[o w2] t3].
    destruct (models_list env _), (models_list env' _); split; try reflexivity;
      cbn [fst snd]; rewrite !core_events_app; reflexivity.
Qed.

Lemma key_check_gates_nothing_witness :
  fst (app_run (mkEnv (fun _ => inr tt) (inr tt) "sk-test" (fun _ => inr tt))
               (agents_of (inr (mkSqlResult (Some count_query) count_table))
                          (inr bar_chart))
               (Some count_question) new_app)
  = fst (app_run (mkEnv (fun _ => inr tt) (inr tt) "sk-test"
                        (fun _ => inl (Py.Exception "Incorrect API key provided")))
                 (agents_of (inr (mkSqlResult (Some count_query) count_table))
                            (inr bar_chart))
                 (Some count_question) new_app).
Proof.
  exact (proj1 (key_check_gates_nothing
    (mkEnv (fun _ => inr tt) (inr tt) "sk-test" (fun _ => inr tt))
    (mkEnv (fun _ => inr tt) (inr tt) "sk-test"
           (fun _ => inl (Py.Exception "Incorrect API key provided")))
    (agents_of (inr (mkSqlResult (Some count_query) count_table)) (inr bar_chart))
    (Some count_question) new_app eq_refl eq_refl eq_refl)).
Defined.

Lemma script_run_after_open_chat ag q w :
  script_run ag q w =
    match open_chat w with
    | (inl e, w1) => (inl e, w1)
    | (inr _, w1) =>
        match q with
        | Some q' => if Py.truthy_str q then handle_question ag q' else ret tt
        | None => ret tt
        end w1
    end.
Proof.
  unfold script_run, open_chat, bind, get_messages.
  destruct ((if (length (langchain_messages (session w)) =? 0)%nat
             then add_ai_message greeting else ret tt) w) as [[e|u] w0];
    [reflexivity|].
  now destruct (display_chat_history w0) as [[e|u'] w1].
Qed.

(** X18.  Past the two gates the run is the chat script.  With the database
    open and a key typed, a run never stops: it ends as the script of the
    chat ends on the same history, leaves the session state that script
    leaves, and its chat effects are those of the start followed by those
    of that script.  The second check of the key, line 184, never fires. *)
Theorem past_the_gates_is_the_chat env ag q a :
  fst (open_database env) = inr tt ->
  Py.truthy_str (Some (api_key_input env)) = true ->
  let r := run (script_run ag q) (chat a) in
  let '(o, a', t) := app_run env ag q a in
  o = match fst r with inl e => Raised e | inr _ => Finished end /\
  a' = mkApp (Some PATH_DB) (Some (api_key_input env)) (session (snd r)) /\
  (exists start,
     t = start ++ map Core (trace (snd r)) /\
     appended_turns (core_events start) = [] /\
     sql_invocations (core_events start) = 0) /\
  ~ In StStop t.
Proof.
  intros Hdb Hkey. cbv zeta. unfold run.
  rewrite script_run_after_open_chat. unfold app_run, ask. rewrite Hkey.
  destruct (open_database env) as [[e|[]] t1] eqn:Hopen; [discriminate|].
  assert (Ht1 : t1 = [CreateEngine PATH_DB;
                      Core (Log DEBUG "SQL Engine created successfully");
                      EngineConnect;
                      Core (Log DEBUG "Database connection established")]).
  { unfold open_database in Hopen.
    destruct (create_engine env PATH_DB) as [e|[]]; [discriminate|].
    destruct (engine_connect env) as [e|[]]; [discriminate|].
    now injection Hopen as <-. }
  subst t1. clear Hopen Hdb.
  assert (Hnostop : forall tr : list event, ~ In StStop (map Core tr)).
  { intros tr Hin. apply in_map_iff in Hin as (x & Hx & _). discriminate Hx. }
  assert (Hstart :
    forall tail,
      exists start,
        [Core (Log DEBUG ("Attempting to connect to database at: " +++ db_path))]
          ++ [CreateEngine PATH_DB;
              Core (Log DEBUG "SQL Engine created successfully");
              EngineConnect;
              Core (Log DEBUG "Database connection established")]
          ++ test_api_key env (api_key_input env) ++ tail
        = start ++ tail /\
        appended_turns (core_events start) = [] /\
        sql_invocations (core_events start) = 0 /\
        ~ In StStop start).
  { intros tail.
    exists ([Core (Log DEBUG ("Attempting to connect to database at: " +++ db_path))]
              ++ [CreateEngine PATH_DB;
                  Core (Log DEBUG "SQL Engine created successfully");
                  EngineConnect;
                  Core (Log DEBUG "Database connection established")]
              ++ test_api_key env (api_key_input env)).
    split; [now rewrite <- !app_assoc|].
    unfold test_api_key.
    destruct (models_list env (api_key_input env));
      repeat split; cbn; intros H;
      repeat (destruct H as [H|H]; [discriminate H|]); exact H. }
  cbn [negb].
  destruct (open_chat (mkWorld (chat a) [])) as [[e|u] w1].
  - cbn [fst snd]. destruct (Hstart (map Core (trace w1))) as (start & Heq & Ha & Hq & Hs).
    repeat split; [now exists start|].
    rewrite Heq. intros Hin. apply in_app_or in Hin as [Hin|Hin];
      [tauto | exact (Hnostop _ Hin)].
  - destruct q as [q|].
    + cbn [andb]. change (Py.truthy_str (Some PATH_DB)) with true. cbn [andb].
      destruct (Py.truthy_str (Some q)).
      * destruct (handle_question ag q w1) as [[e|u'] w2]; cbn [fst snd];
          rewrite app_nil_r;
          destruct (Hstart (map Core (trace w2))) as (start & Heq & Ha & Hq & Hs);
          (repeat split; [now exists start|]);
          rewrite Heq; intros Hin; apply in_app_or in Hin as [Hin|Hin];
          try tauto; exact (Hnostop _ Hin).
      * unfold ret. cbn [fst snd]. rewrite app_nil_r.
        destruct (Hstart (map Core (trace w1))) as (start & Heq & Ha & Hq & Hs).
        repeat split; [now exists start|].
        rewrite Heq. intros Hin. apply in_app_or in Hin as [Hin|Hin];
          [tauto | exact (Hnostop _ Hin)].
    + unfold ret. cbn [fst snd]. rewrite app_nil_r.
      destruct (Hstart (map Core (trace w1))) as (start & Heq & Ha & Hq & Hs).
      repeat split; [now exists start|].
      rewrite Heq. intros Hin. apply in_app_or in Hin as [Hin|Hin];
        [tauto | exact (Hnostop _ Hin)].
Qed.

Lemma past_the_gates_is_the_chat_witness :
  let env := mkEnv (fun _ => inr tt) (inr tt) "sk-test"
                   (fun _ => inl (Py.Exception "Incorrect API key provided")) in
  let ag := agents_of (inr (mkSqlResult (Some count_query) count_table))
                      (inr bar_chart) in
  let r := run (script_run ag (Some count_question)) (chat new_app) in
  let '(o, a', t) := app_run env ag (Some count_question) new_app in
  o = match fst r with inl e => Raised e | inr _ => Finished end /\
  a' = mkApp (Some PATH_DB) (Some (api_key_input env)) (session (snd r)) /\
  (exists start,
     t = start ++ map Core (trace (snd r)) /\
     appended_turns (core_events start) = [] /\
     sql_invocations (core_events start) = 0) /\
  ~ In StStop t.
Proof.
  intros env ag.
  exact (past_the_gates_is_the_chat env ag (Some count_question) new_app
           eq_refl eq_refl).
Defined.

Lemma display_chat_history_quiet w :
  session (snd (display_chat_history w)) = session w /\
  sql_invocations (trace (snd (display_chat_history w))) = sql_invocations (trace w) /\
  viz_invocations (trace (snd (display_chat_history w))) = viz_invocations (trace w).
Proof.
  split; [apply display_chat_history_session|].
  unfold display_chat_history, bind, get_messages. cbn [fst snd].
  destruct (display_messages_bubbles (langchain_messages (session w)) w)
    as (tr & Ht & Hb & _).
  destruct (bubbles_have_no_chart _ Hb) as (_ & _ & _ & _ & Hv & Hq).
  rewrite Ht, sql_invocations_app, viz_invocations_app, Hv, Hq. lia.
Qed.

(** X19.  A run without a question only renders.  When the script reruns
    with nothing typed in the chat box, no agent is called and the session
    state is left as it is, but for the greeting an empty history gets. *)
Theorem rerun_without_question ag s :
  session (snd (run (script_run ag None) s))
    = match langchain_messages s with
      | [] => mkSession [mkMessage ai greeting] (dataframes s)
      | _ => s
      end /\
  sql_invocations (trace (snd (run (script_run ag None) s))) = 0 /\
  viz_invocations (trace (snd (run (script_run ag None) s))) = 0.
Proof.
  unfold run. rewrite script_run_after_open_chat.
  assert (Hsnd : forall r : (Py.exn + unit) * world,
            snd (let (x, w1) := r in
                 match x with
                 | inl e => (inl e, w1)
                 | inr _ => ret tt w1
                 end) = snd r).
  { intros [[e|u] w1]; reflexivity. }
  rewrite Hsnd. clear Hsnd.
  unfold open_chat, bind, get_messages. cbn [session].
  destruct (langchain_messages s) as [|m0 l] eqn:Hl; cbn [length Nat.eqb].
  - unfold add_ai_message, add_message. cbv beta iota.
    cbn [session langchain_messages dataframes trace app]. rewrite Hl. cbn [app].
    destruct (display_chat_history_quiet
                (mkWorld (mkSession [mkMessage ai greeting] (dataframes s))
                         [AddMessage (mkMessage ai greeting)]))
      as (Hs & Hq & Hv).
    now rewrite Hs, Hq, Hv.
  - unfold ret. cbv beta iota.
    destruct (display_chat_history_quiet (mkWorld s [])) as (Hs & Hq & Hv).
    now rewrite Hs, Hq, Hv.
Qed.


(** ** Splitting at the marker *)

Lemma prefix_drop sep : forall s,
  String.prefix sep s = true -> s = sep +++ Py.drop (String.length sep) s.
Proof.
  induction sep as [|a sep IH]; intros s H; [now destruct s|].
  destruct s as [|b s]; cbn [String.prefix] in H; [discriminate|].
  destruct (ascii_dec a b) as [->|]; [|discriminate].
  cbn [String.length Py.drop String.append]. f_equal. now apply IH.
Qed.

Lemma find_cut sep : forall s i,
  Py.find sep s = Some i ->
  s = Py.take i s +++ sep +++ Py.drop (i + String.length sep) s.
Proof.
  induction s as [|c s IH]; intros i H; rewrite find_unfold in H.
  - destruct (String.prefix sep EmptyString) eqn:Hp; [|discriminate].
    injection H as <-. cbn [Py.take String.append Nat.add]. now apply prefix_drop.
  - destruct (String.prefix sep (String c s)) eqn:Hp.
    + injection H as <-. cbn [Py.take String.append Nat.add]. now apply prefix_drop.
    + destruct (Py.find sep s) as [j|] eqn:Hj; [|discriminate].
      injection H as <-. cbn [Py.take Py.drop String.append Nat.add].
      f_equal. now apply IH.
Qed.

Lemma split_fuel_nonempty fuel sep s : Py.split_fuel fuel sep s <> [].
Proof.
  destruct fuel; cbn [Py.split_fuel]; [discriminate|].
  destruct (Py.find sep s); discriminate.
Qed.

Lemma join_cons sep p rest :
  rest <> [] -> join sep (p :: rest) = p +++ sep +++ join sep rest.
Proof. destruct rest; [contradiction|reflexivity]. Qed.

Lemma join_split_fuel sep fuel : forall s,
  join sep (Py.split_fuel fuel sep s) = s.
Proof.
  induction fuel as [|fuel IH]; intros s; cbn [Py.split_fuel]; [reflexivity|].
  destruct (Py.find sep s) as [i|] eqn:Hi; [|reflexivity].
  rewrite join_cons by apply split_fuel_nonempty.
  rewrite IH. symmetry. now apply find_cut.
Qed.

Lemma prefix_take sep : forall n s,
  String.prefix sep (Py.take n s) = true -> String.prefix sep s = true.
Proof.
  induction sep as [|a sep IH]; intros n s H; [apply prefix_empty|].
  destruct n as [|n], s as [|b s]; cbn [Py.take String.prefix] in *;
    try discriminate.
  destruct (ascii_dec a b); [now apply (IH n) | discriminate].
Qed.

Lemma find_empty a sep : Py.find (String a sep) EmptyString = None.
Proof. reflexivity. Qed.

(** The piece before the first occurrence holds no occurrence. *)
Lemma find_take a sep : forall s i,
  Py.find (String a sep) s = Some i ->
  Py.find (String a sep) (Py.take i s) = None.
Proof.
  induction s as [|c s IH]; intros i H; rewrite find_unfold in H.
  - discriminate.
  - destruct (String.prefix (String a sep) (String c s)) eqn:Hp.
    + now injection H as <-.
    + destruct (Py.find (String a sep) s) as [j|] eqn:Hj; [|discriminate].
      injection H as <-. cbn [Py.take]. rewrite find_unfold.
      destruct (String.prefix (String a sep) (String c (Py.take j s))) eqn:Hp'.
      * apply (prefix_take _ (S j) (String c s)) in Hp'. congruence.
      * now rewrite (IH j eq_refl).
Qed.

Lemma drop_length : forall n s,
  String.length (Py.drop n s) = String.length s - n.
Proof.
  induction n as [|n IH]; intros s; cbn [Py.drop]; [lia|].
  destruct s as [|c s]; cbn [String.length]; [reflexivity|]. now rewrite IH.
Qed.

Lemma split_fuel_pieces a sep fuel : forall s,
  String.length s <= fuel ->
  Forall (fun p => Py.contains (String a sep) p = false)
         (Py.split_fuel fuel (String a sep) s).
Proof.
  induction fuel as [|fuel IH]; intros s Hlen.
  - destruct s; [|cbn in Hlen; lia]. now repeat constructor.
  - cbn [Py.split_fuel].
    destruct (Py.find (String a sep) s) as [i|] eqn:Hi.
    + constructor.
      * unfold Py.contains. now rewrite (find_take _ _ _ _ Hi).
      * apply IH. rewrite drop_length.
        pose proof (find_bound _ _ _ Hi) as Hb. cbn [String.length] in *. lia.
    + repeat constructor. unfold Py.contains. now rewrite Hi.
Qed.

(** X21.  Splitting at the marker loses nothing and leaves no marker
    behind: the pieces of a content, joined with the marker between them,
    are the content again, there is at least one piece, there are at least
    two exactly when the content holds the marker, and no piece holds the
    marker. *)
Theorem split_at_marker c :
  join marker (Py.split marker c) = c /\
  Forall (fun p => Py.contains marker p = false) (Py.split marker c) /\
  (2 <= length (Py.split marker c) <-> Py.contains marker c = true) /\
  1 <= length (Py.split marker c).
Proof.
  repeat split.
  - apply join_split_fuel.
  - unfold Py.split, marker. now apply split_fuel_pieces.
  - intros Hlen. unfold Py.contains. unfold Py.split in Hlen.
    destruct (String.length c) as [|n] eqn:Hn; cbn [Py.split_fuel] in Hlen;
      [cbn in Hlen; lia|].
    destruct (Py.find marker c); [reflexivity | cbn in Hlen; lia].
  - intros Hc. pose proof (split_marker_second c Hc) as H.
    destruct (Py.split marker c) as [|p [|p' l]];
      cbn [nth_error length] in *; try discriminate H; lia.
  - pose proof (split_fuel_nonempty (String.length c) marker c) as H.
    unfold Py.split.
    destruct (Py.split_fuel _ _ _); [contradiction | cbn [length]; lia].
Qed.
